(** * Fruit Jam NTP helper: a shallow embedding of [adafruit_fruitjam/ntp.py]

    The module is a thin orchestration script around external collaborators
    (the AirLift radio driver, the socket pool, the NTP client, the RTC and
    the [time] module).  The embedding keeps the code's control flow and
    makes the collaborators explicit:

    - Python values are a small tagged union [pyval];
    - the Python builtins the module relies on ([float()], [int()], float
      addition) are an interface [PyBuiltins];
    - every call to a collaborator is answered by a [Platform], whose
      answers may depend on the whole history of earlier calls, and is
      logged, with its answer, as an [event];
    - module code runs in a state-and-exception monad [M] over the
      module-level [_State] holder, in which state changes and emitted
      events survive a raised exception, as in Python. *)

From Stdlib Require Import ZArith QArith String Ascii List Bool Lia.
From stdpp Require Import base option gmap strings list.

Local Open Scope string_scope.
Local Open Scope Z_scope.
Local Open Scope list_scope.

(** ** Exceptions and results *)

(** Instances of Python's [Exception] hierarchy.  Signals that derive only
    from [BaseException] (keyboard interrupts, interpreter exit) are not
    caught by the module's [except Exception] clauses and are not modelled. *)
Inductive exn_class :=
  | RuntimeError | ValueError | TypeError | OverflowError
  | OSError | ConnectionError | TimeoutError.

Record exn := Exn { exn_cls : exn_class; exn_msg : string }.

(** The name of an exception's class, [type(e).__name__]. *)
Definition exn_name (c : exn_class) : string :=
  match c with
  | RuntimeError => "RuntimeError"
  | ValueError => "ValueError"
  | TypeError => "TypeError"
  | OverflowError => "OverflowError"
  | OSError => "OSError"
  | ConnectionError => "ConnectionError"
  | TimeoutError => "TimeoutError"
  end.

Inductive result (A : Type) :=
  | Ok (a : A)
  | Raise (e : exn).
Arguments Ok {A} a.
Arguments Raise {A} e.

Definition is_ok {A} (r : result A) : bool :=
  match r with Ok _ => true | Raise _ => false end.

Definition is_raise {A} (r : result A) : bool := negb (is_ok r).

Definition result_bind {A B} (r : result A) (k : A -> result B) : result B :=
  match r with Ok a => k a | Raise e => Raise e end.

Notation "'let?' x := r 'in' k" := (result_bind r (fun x => k))
  (at level 10, x pattern, r at level 100, k at level 200).

(** [try: r  except Exception: h] on pure computations. *)
Definition result_catch {A} (r : result A) (h : result A) : result A :=
  match r with Ok a => Ok a | Raise _ => h end.

(** ** Builtins of the Python runtime

    CircuitPython and CPython differ in their float width and in the
    literals [float()] and [int()] accept, so the numeric builtins are an
    interface; nothing below depends on how they round or parse. *)
Class PyFloat := float : Type.

Class PyBuiltins `{PyFloat} := {
  float_0_0 : float;                       (* the literal 0.0 *)
  float_1_0 : float;                       (* the literal 1.0 *)
  float_5_0 : float;                       (* the literal 5.0 *)
  float_add : float -> float -> float;     (* float + float *)
  float_nonzero : float -> bool;           (* bool(f) *)
  float_negative : float -> bool;          (* f < 0 *)
  float_of_int : Z -> result float;        (* float(i) *)
  float_of_str : string -> result float;   (* float(s) *)
  int_of_float : float -> result Z;        (* int(f) *)
  int_of_str : string -> result Z;         (* int(s) *)
}.

Section Model.
Context `{PyBuiltins}.

(** ** Python values *)
Inductive pyval :=
  | PNone
  | PBool (b : bool)
  | PInt (z : Z)
  | PFloat (f : float)
  | PStr (s : string).

(** [bool(v)]. *)
Definition truthy (v : pyval) : bool :=
  match v with
  | PNone => false
  | PBool b => b
  | PInt z => negb (Z.eqb z 0)
  | PFloat f => float_nonzero f
  | PStr s => negb (String.eqb s "")
  end.

(** [a or b]. *)
Definition py_or (a b : pyval) : pyval := if truthy a then a else b.

(** [v in {None, ""}]. *)
Definition in_none_or_empty (v : pyval) : bool :=
  match v with
  | PNone => true
  | PStr s => String.eqb s ""
  | _ => false
  end.

(** [float(v)]. *)
Definition py_float (v : pyval) : result float :=
  match v with
  | PNone => Raise (Exn TypeError "can't convert NoneType to float")
  | PBool b => float_of_int (if b then 1 else 0)
  | PInt z => float_of_int z
  | PFloat f => Ok f
  | PStr s => float_of_str s
  end.

(** [int(v)]. *)
Definition py_int (v : pyval) : result Z :=
  match v with
  | PNone => Raise (Exn TypeError "can't convert NoneType to int")
  | PBool b => Ok (if b then 1 else 0)
  | PInt z => Ok z
  | PFloat f => int_of_float f
  | PStr s => int_of_str s
  end.

(** [a + b] on the values the module adds: numbers.  Strings and [None]
    on either side of a number raise [TypeError]. *)
Definition py_add (a b : pyval) : result pyval :=
  let unsupported := Raise (Exn TypeError "unsupported types for __add__") in
  let as_int v := match v with
                  | PInt z => Some z
                  | PBool b => Some (if b then 1 else 0)
                  | _ => None
                  end in
  match a, b with
  | PFloat x, PFloat y => Ok (PFloat (float_add x y))
  | PFloat x, _ =>
      match as_int b with
      | Some z => result_bind (float_of_int z) (fun y => Ok (PFloat (float_add x y)))
      | None => unsupported
      end
  | _, PFloat y =>
      match as_int a with
      | Some z => result_bind (float_of_int z) (fun x => Ok (PFloat (float_add x y)))
      | None => unsupported
      end
  | _, _ =>
      match as_int a, as_int b with
      | Some x, Some y => Ok (PInt (x + y))
      | _, _ => unsupported
      end
  end.

(** ** The process environment: [os.getenv] over [settings.toml] *)

(** [os.getenv(name)]; [None] when the variable is not set.  CircuitPython
    returns integers for integer entries of [settings.toml] and strings
    otherwise. *)
Definition getenv (env : gmap string pyval) (name : string) : pyval :=
  default PNone (env !! name).

(** [_env_float(name, default)], ntp.py lines 61-66. *)
Definition _env_float (env : gmap string pyval) (name : string) (default : pyval)
  : result float :=
  result_catch
    (let v := getenv env name in
     if negb (in_none_or_empty v) then py_float v else py_float default)
    (py_float default).

(** [_env_int(name, default)], ntp.py lines 69-74. *)
Definition _env_int (env : gmap string pyval) (name : string) (default : pyval)
  : result Z :=
  result_catch
    (let v := getenv env name in
     if negb (in_none_or_empty v) then py_int v else py_int default)
    (py_int default).


(** ** Collaborators: hardware objects, calls and their answers *)

(** Objects handed out by the platform (buses, pins, the radio, the socket
    pool, NTP clients) are opaque; only their identity matters. *)
Definition handle := nat.

(** The three AirLift control lines named on [board]. *)
Inductive board_pin := ESP_CS | ESP_BUSY | ESP_RESET.

(** [time.struct_time]. *)
Record struct_time := {
  tm_year : Z; tm_mon : Z; tm_mday : Z;
  tm_hour : Z; tm_min : Z; tm_sec : Z;
  tm_wday : Z; tm_yday : Z; tm_isdst : Z
}.

(** Arguments of [print]. *)
Inductive printed :=
  | PrStr (s : string)
  | PrExn (e : exn)
  | PrTime (t : struct_time).

(** One call to a collaborator, with the answer it gave. *)
Inductive event :=
  | EvSPI (r : result handle)                                  (* board.SPI() *)
  | EvDigitalInOut (p : board_pin) (r : result handle)         (* DigitalInOut(board.p) *)
  | EvESP (spi cs rdy rst : handle) (r : result handle)        (* ESP_SPIcontrol(...) *)
  | EvPool (esp : handle) (r : result handle)                  (* acm.get_radio_socketpool(esp) *)
  | EvIsConnected (esp : handle) (r : result bool)             (* esp.is_connected *)
  | EvConnectAP (esp : handle) (ssid pw : pyval) (r : result unit) (* esp.connect_AP(ssid, pw) *)
  | EvReset (esp : handle) (r : result unit)                   (* esp.reset() *)
  | EvSleep (secs : pyval) (r : result unit)                   (* time.sleep(secs) *)
  | EvNTP (pool : handle) (tz_offset server : pyval)
          (socket_timeout : float) (cache_seconds : Z)
          (r : result handle)                                  (* adafruit_ntp.NTP(...) *)
  | EvDatetime (ntp : handle) (r : result struct_time)         (* ntp.datetime *)
  | EvRTCSet (now : struct_time) (r : result unit)             (* rtc.RTC().datetime = now *)
  | EvTime (r : pyval)                                         (* time.time() *)
  | EvLocaltime (r : struct_time)                              (* time.localtime() *)
  | EvDeinit (pin : handle) (r : result unit)                  (* pin.deinit() *)
  | EvPrint (args : list printed).                             (* print(...) *)

(** The collaborators.  Each answer is a function of the calls made so far
    (oldest first) and of the call's arguments, so a platform can fail a
    connection twice and then accept it, refuse a pin that is still
    claimed, and so on. *)
Record Platform := {
  board_SPI : list event -> result handle;
  DigitalInOut : list event -> board_pin -> result handle;
  ESP_SPIcontrol : list event -> handle -> handle -> handle -> handle -> result handle;
  get_radio_socketpool : list event -> handle -> result handle;
  esp_is_connected : list event -> handle -> result bool;
  esp_connect_AP : list event -> handle -> pyval -> pyval -> result unit;
  esp_reset : list event -> handle -> result unit;
  adafruit_ntp_NTP :
    list event -> handle -> pyval -> pyval -> float -> Z -> result handle;
  ntp_datetime : list event -> handle -> result struct_time;
  rtc_set_datetime : list event -> struct_time -> result unit;
  time_time : list event -> pyval;
  time_localtime : list event -> struct_time;
  pin_deinit : list event -> handle -> result unit
}.

(** ** Module state: the [_State] holder, ntp.py lines 23-35 *)
Record _State := {
  spi : option handle;
  cs : option handle;
  rdy : option handle;
  rst : option handle;
  esp : option handle;
  pool : option handle
}.

(** [_state = _State()]. *)
Definition _state_init : _State :=
  {| spi := None; cs := None; rdy := None; rst := None; esp := None; pool := None |}.

(** ** The monad of module code

    A computation receives the history of collaborator calls and the
    module state; it yields a result or a raised exception, the new module
    state, and the calls it made itself, oldest first. *)
Definition M (A : Type) : Type :=
  list event -> _State -> result A * _State * list event.

Definition ret {A} (a : A) : M A := fun _ s => (Ok a, s, []).

Definition raise {A} (e : exn) : M A := fun _ s => (Raise e, s, []).

Definition bind {A B} (m : M A) (k : A -> M B) : M B :=
  fun h s =>
    let '(r, s1, ev1) := m h s in
    match r with
    | Ok a => let '(r2, s2, ev2) := k a (h ++ ev1) s1 in (r2, s2, ev1 ++ ev2)
    | Raise e => (Raise e, s1, ev1)
    end.

(** [try: m  except Exception as e: handler e]. *)
Definition try_except {A} (m : M A) (handler : exn -> M A) : M A :=
  fun h s =>
    let '(r, s1, ev1) := m h s in
    match r with
    | Ok a => (Ok a, s1, ev1)
    | Raise e =>
        let '(r2, s2, ev2) := handler e (h ++ ev1) s1 in (r2, s2, ev1 ++ ev2)
    end.

(** [try: m  finally: cleanup]: the cleanup always runs; the exception of
    [m], if any, is re-raised after it. *)
Definition try_finally {A} (m : M A) (cleanup : M unit) : M A :=
  fun h s =>
    let '(r, s1, ev1) := m h s in
    let '(rc, s2, ev2) := cleanup (h ++ ev1) s1 in
    match rc with
    | Ok _ => (r, s2, ev1 ++ ev2)
    | Raise e => (Raise e, s2, ev1 ++ ev2)
    end.

Definition lift {A} (r : result A) : M A := fun _ s => (r, s, []).

Definition get_state : M _State := fun _ s => (Ok s, s, []).

Definition modify_state (f : _State -> _State) : M unit :=
  fun _ s => (Ok tt, f s, []).

(** A call to a collaborator: ask the platform, log call and answer. *)
Definition call {A} (answer : list event -> result A) (log : result A -> event)
  : M A :=
  fun h s => let r := answer h in (r, s, [log r]).

(** A call that cannot fail. *)
Definition call_total {A} (answer : list event -> A) (log : A -> event) : M A :=
  fun h s => let a := answer h in (Ok a, s, [log a]).

Notation "'let*' x := m 'in' k" := (bind m (fun x => k))
  (at level 10, x pattern, m at level 100, k at level 200).
Notation "m ;; k" := (bind m (fun _ => k))
  (at level 100, k at level 200, right associativity).

Variable X : Platform.

(** ** [_ensure_radio], ntp.py lines 38-58 *)

(** [if field is None: field = make()], then the field's value. *)
Definition ensure_field (field : _State -> option handle)
    (store : handle -> _State -> _State) (make : M handle) : M handle :=
  let* st := get_state in
  match field st with
  | Some h => ret h
  | None => let* h := make in modify_state (store h) ;; ret h
  end.

Definition _ensure_radio : M (handle * handle) :=
  let* st := get_state in
  match esp st, pool st with
  | Some e, Some p => ret (e, p)
  | _, _ =>
      let* spi_h := ensure_field spi
        (fun h st => {| spi := Some h; cs := cs st; rdy := rdy st; rst := rst st;
                        esp := esp st; pool := pool st |})
        (call (board_SPI X) EvSPI) in
      let* cs_h := ensure_field cs
        (fun h st => {| spi := spi st; cs := Some h; rdy := rdy st; rst := rst st;
                        esp := esp st; pool := pool st |})
        (call (fun h => DigitalInOut X h ESP_CS) (EvDigitalInOut ESP_CS)) in
      let* rdy_h := ensure_field rdy
        (fun h st => {| spi := spi st; cs := cs st; rdy := Some h; rst := rst st;
                        esp := esp st; pool := pool st |})
        (call (fun h => DigitalInOut X h ESP_BUSY) (EvDigitalInOut ESP_BUSY)) in
      let* rst_h := ensure_field rst
        (fun h st => {| spi := spi st; cs := cs st; rdy := rdy st; rst := Some h;
                        esp := esp st; pool := pool st |})
        (call (fun h => DigitalInOut X h ESP_RESET) (EvDigitalInOut ESP_RESET)) in
      let* esp_h := ensure_field esp
        (fun h st => {| spi := spi st; cs := cs st; rdy := rdy st; rst := rst st;
                        esp := Some h; pool := pool st |})
        (call (fun h => ESP_SPIcontrol X h spi_h cs_h rdy_h rst_h)
              (EvESP spi_h cs_h rdy_h rst_h)) in
      let* pool_h := ensure_field pool
        (fun h st => {| spi := spi st; cs := cs st; rdy := rdy st; rst := rst st;
                        esp := esp st; pool := Some h |})
        (call (fun h => get_radio_socketpool X h esp_h) (EvPool esp_h)) in
      ret (esp_h, pool_h)
  end.

(** ** [sync_time], ntp.py lines 77-140 *)

(** The configuration resolved by lines 95-107. *)
Record config := {
  c_server : pyval;
  c_tz_offset : pyval;
  c_timeout : float;
  c_retries : Z;
  c_retry_delay : float;
  c_cache_seconds : Z;
  c_require_year : Z;
  c_interval : Z
}.

(** [t.get(key, default)]. *)
Definition dict_get (t : gmap string pyval) (key : string) (default : pyval)
  : pyval :=
  match t !! key with Some v => v | None => default end.

(** Lines 95-107.  [os.getenv] has no effect on the collaborators, so the
    resolution is a pure function of the environment and the arguments;
    the order of the conversions, which decides the exception raised when
    several fail, is the source's.  [tuning or {}] is the dict itself or,
    for [None] and for the empty dict, an empty dict. *)
Definition sync_config (env : gmap string pyval) (server tz_offset : pyval)
    (tuning : option (gmap string pyval)) : result config :=
  let server :=
    py_or (py_or server (getenv env "NTP_SERVER")) (PStr "pool.ntp.org") in
  let? tz_offset :=
    match tz_offset with
    | PNone => let? tz := _env_float env "NTP_TZ" (PFloat float_0_0) in Ok (PFloat tz)
    | _ => Ok tz_offset
    end in
  let? dst := _env_float env "NTP_DST" (PFloat float_0_0) in
  let? tz_offset := py_add tz_offset (PFloat dst) in
  let t := match tuning with Some d => d | None => ∅ end in
  let? env_timeout := _env_float env "NTP_TIMEOUT" (PFloat float_5_0) in
  let? timeout := py_float (dict_get t "timeout" (PFloat env_timeout)) in
  let? env_retries := _env_int env "NTP_RETRIES" (PInt 2) in
  let? retries := py_int (dict_get t "retries" (PInt env_retries)) in
  let? env_delay := _env_float env "NTP_DELAY_S" (PFloat float_1_0) in
  let? retry_delay := py_float (dict_get t "retry_delay" (PFloat env_delay)) in
  let? env_cache := _env_int env "NTP_CACHE_SECONDS" (PInt 0) in
  let? cache_seconds := py_int (dict_get t "cache_seconds" (PInt env_cache)) in
  let? require_year := py_int (dict_get t "require_year" (PInt 2022)) in
  let? interval := _env_int env "NTP_INTERVAL" (PInt 0) in
  Ok {| c_server := server; c_tz_offset := tz_offset; c_timeout := timeout;
        c_retries := retries; c_retry_delay := retry_delay;
        c_cache_seconds := cache_seconds; c_require_year := require_year;
        c_interval := interval |}.

(** [range(n)]. *)
Definition range (n : Z) : list Z := map Z.of_nat (seq 0 (Z.to_nat n)).

(** [time.sleep(secs)]: a negative length is refused with [ValueError]. *)
Definition time_sleep (secs : pyval) : M unit :=
  call (fun _ =>
          match secs with
          | PInt z =>
              if z <? 0 then Raise (Exn ValueError "sleep length must be non-negative")
              else Ok tt
          | PFloat f =>
              if float_negative f
              then Raise (Exn ValueError "sleep length must be non-negative")
              else Ok tt
          | PBool _ => Ok tt
          | _ => Raise (Exn TypeError "can't convert to float")
          end)
       (EvSleep secs).

(** The body of the [try] of lines 113-116, up to the [break]. *)
Definition connect_attempt (esp_h : handle) (ssid pw : pyval) : M unit :=
  let* connected :=
    call (fun h => esp_is_connected X h esp_h) (EvIsConnected esp_h) in
  if negb connected
  then call (fun h => esp_connect_AP X h esp_h ssid pw) (EvConnectAP esp_h ssid pw)
  else ret tt.

(** Lines 112-124: [for attempt in range(retries + 1)], by recursion on the
    attempts still to come.  A successful attempt breaks out of the loop;
    a handled failure continues with the next attempt. *)
Fixpoint connect_loop (esp_h : handle) (ssid pw : pyval) (retries : Z)
    (retry_delay : float) (attempts : list Z) : M unit :=
  match attempts with
  | [] => ret tt
  | attempt :: rest =>
      try_except (connect_attempt esp_h ssid pw)
        (fun e =>
           if attempt >=? retries then raise e
           else
             try_except (call (fun h => esp_reset X h esp_h) (EvReset esp_h))
                        (fun _ => ret tt) ;;
             time_sleep (PFloat retry_delay) ;;
             connect_loop esp_h ssid pw retries retry_delay rest)
  end.

Definition missing_credentials : exn :=
  Exn RuntimeError "Add CIRCUITPY_WIFI_SSID/PASSWORD to settings.toml".

Definition unexpected_year : exn :=
  Exn RuntimeError "NTP returned an unexpected year; not setting RTC".

(** Lines 126-140: build the NTP client, fetch, validate the year, set the
    RTC and compute [next_sync]. *)
Definition fetch_and_set (cfg : config) (pool_h : handle)
  : M (struct_time * pyval) :=
  let* ntp :=
    call (fun h => adafruit_ntp_NTP X h pool_h (c_tz_offset cfg)
                     (c_server cfg) (c_timeout cfg) (c_cache_seconds cfg))
         (EvNTP pool_h (c_tz_offset cfg) (c_server cfg) (c_timeout cfg)
                (c_cache_seconds cfg)) in
  let* now := call (fun h => ntp_datetime X h ntp) (EvDatetime ntp) in
  if tm_year now <? c_require_year cfg then raise unexpected_year
  else
    call (fun h => rtc_set_datetime X h now) (EvRTCSet now) ;;
    let* next_sync :=
      if c_interval cfg >? 0
      then let* t := call_total (time_time X) EvTime in
           lift (py_add t (PInt (c_interval cfg)))
      else ret PNone in
    ret (now, next_sync).

(** [sync_time(server=..., tz_offset=..., tuning=...)]; an argument left
    out is [None].  Returns [(now, next_sync)]. *)
Definition sync_time (env : gmap string pyval) (server tz_offset : pyval)
    (tuning : option (gmap string pyval)) : M (struct_time * pyval) :=
  let ssid := getenv env "CIRCUITPY_WIFI_SSID" in
  let pw := getenv env "CIRCUITPY_WIFI_PASSWORD" in
  if negb (truthy ssid) || negb (truthy pw) then raise missing_credentials
  else
    let* cfg := lift (sync_config env server tz_offset tuning) in
    let* radio := _ensure_radio in
    connect_loop (fst radio) ssid pw (c_retries cfg) (c_retry_delay cfg)
                 (range (c_retries cfg + 1)) ;;
    fetch_and_set cfg (snd radio).

(** ** [release_pins], ntp.py lines 143-150 *)

(** [for pin in pins: if pin: pin.deinit()]; a pin object is truthy, so
    only [None] is skipped.  An exception ends the loop. *)
Fixpoint deinit_pins (pins : list (option handle)) : M unit :=
  match pins with
  | [] => ret tt
  | None :: rest => deinit_pins rest
  | Some pin :: rest =>
      call (fun h => pin_deinit X h pin) (EvDeinit pin) ;; deinit_pins rest
  end.

Definition release_pins : M unit :=
  let* st := get_state in
  try_finally (deinit_pins [cs st; rdy st; rst st])
              (modify_state (fun _ => _state_init)).

(** ** [setup_ntp], ntp.py lines 153-164 *)

(** [print(...)]; like [time.localtime()] below, it does not fail. *)
Definition print (args : list printed) : M unit :=
  call_total (fun _ => tt) (fun _ => EvPrint args).

(** The [while True] loop of lines 156-162, unrolled at most [fuel] times;
    [None] when the fuel runs out before a [sync_time] call succeeds. *)
Fixpoint setup_ntp_loop (env : gmap string pyval) (fuel : nat)
  : M (option (struct_time * pyval)) :=
  match fuel with
  | O => ret None
  | S fuel' =>
      try_except
        (let* r := sync_time env PNone PNone None in ret (Some r))
        (fun ex =>
           print [PrStr "Exception:"; PrExn ex] ;;
           time_sleep (PInt 1) ;;
           setup_ntp_loop env fuel')
  end.

Definition setup_ntp (env : gmap string pyval) (fuel : nat)
  : M (option (struct_time * pyval)) :=
  print [PrStr "Fetching time via NTP."] ;;
  let* r := setup_ntp_loop env fuel in
  match r with
  | None => ret None
  | Some (now, next_sync) =>
      let* lt := call_total (time_localtime X) EvLocaltime in
      print [PrStr "NTP OK, localtime:"; PrTime lt] ;;
      ret (Some (now, next_sync))
  end.

(** ** Reading a log of calls *)

(** Every connection attempt starts by reading [esp.is_connected]. *)
Definition is_attempt (e : event) : bool :=
  match e with EvIsConnected _ _ => true | _ => false end.

(** The exception that made a connection attempt fail. *)
Definition attempt_failure (e : event) : option exn :=
  match e with
  | EvIsConnected _ (Raise x) => Some x
  | EvConnectAP _ _ _ (Raise x) => Some x
  | _ => None
  end.

Definition failures (evs : list event) : list exn := omap attempt_failure evs.

Definition attempts (evs : list event) : nat := length (List.filter is_attempt evs).

(** The connection loop as a sequence of failed attempts, resets and
    waits. *)
Inductive loop_step :=
  | SFailed (x : exn)
  | SReset
  | SWait (secs : pyval) (r : result unit).

Definition step_of (e : event) : option loop_step :=
  match e with
  | EvIsConnected _ (Raise x) => Some (SFailed x)
  | EvConnectAP _ _ _ (Raise x) => Some (SFailed x)
  | EvReset _ _ => Some SReset
  | EvSleep secs r => Some (SWait secs r)
  | _ => None
  end.

Definition steps (evs : list event) : list loop_step := omap step_of evs.

Definition resets (evs : list event) : nat :=
  length (List.filter (fun e => match e with EvReset _ _ => true | _ => false end) evs).

Definition rtc_writes (evs : list event) : list struct_time :=
  omap (fun e => match e with EvRTCSet t _ => Some t | _ => None end) evs.

Definition fetched (evs : list event) : list struct_time :=
  omap (fun e => match e with EvDatetime _ (Ok t) => Some t | _ => None end) evs.

Definition deinits (evs : list event) : list handle :=
  omap (fun e => match e with EvDeinit p _ => Some p | _ => None end) evs.

End Model.

Arguments Platform {_}.
Arguments M {_} A.

Notation "'let*' x := m 'in' k" := (bind m (fun x => k))
  (at level 10, x pattern, m at level 100, k at level 200).
Notation "m ;; k" := (bind m (fun _ => k))
  (at level 100, k at level 200, right associativity).

(** * Vocabulary of the properties

    Words the statements below use: what a log of calls contains, what the
    environment resolves to, what a phase of [sync_time] may do. *)
Section Vocabulary.
Context `{PyBuiltins}.

(** Every call [m] makes satisfies [P], whatever the history and state. *)
Definition emits {A} (P : event -> Prop) (m : M A) : Prop :=
  forall h s, Forall P (m h s).2.

(** [m] leaves the module state alone. *)
Definition pure_state {A} (m : M A) : Prop :=
  forall h s, (m h s).1.2 = s.

(** Calls sorted by the part of [sync_time] that makes them. *)
Definition is_setup (e : event) : Prop :=
  match e with
  | EvSPI _ | EvDigitalInOut _ _ | EvESP _ _ _ _ _ | EvPool _ _ => True
  | _ => False
  end.

Definition is_radio (e : event) : Prop :=
  match e with
  | EvIsConnected _ _ | EvConnectAP _ _ _ _ | EvReset _ _ | EvSleep _ _ => True
  | _ => False
  end.

(** Calls of the connection loop; its waits last [delay] seconds. *)
Definition loop_call (delay : float) (e : event) : Prop :=
  match e with
  | EvIsConnected _ _ | EvConnectAP _ _ _ _ | EvReset _ _ => True
  | EvSleep secs _ => secs = PFloat delay
  | _ => False
  end.

(** A failed attempt that is not the last: the failure, the reset, the
    completed wait. *)
Definition retried (delay : float) (x : exn) : list loop_step :=
  [SFailed x; SReset; SWait (PFloat delay) (Ok tt)].

Definition ntp_event (cfg : config) (pool_h : handle) (r : result handle) : event :=
  EvNTP pool_h (c_tz_offset cfg) (c_server cfg) (c_timeout cfg)
        (c_cache_seconds cfg) r.

(** The six ways lines 126-140 can go, with the calls made in each. *)
Inductive fetch_outcome (cfg : config) (pool_h : handle)
  : result (struct_time * pyval) -> list event -> Prop :=
  | fo_client_fails e :
      fetch_outcome cfg pool_h (Raise e) [ntp_event cfg pool_h (Raise e)]
  | fo_fetch_fails ntp e :
      fetch_outcome cfg pool_h (Raise e)
        [ntp_event cfg pool_h (Ok ntp); EvDatetime ntp (Raise e)]
  | fo_year_refused ntp now :
      tm_year now < c_require_year cfg ->
      fetch_outcome cfg pool_h (Raise unexpected_year)
        [ntp_event cfg pool_h (Ok ntp); EvDatetime ntp (Ok now)]
  | fo_rtc_fails ntp now e :
      c_require_year cfg <= tm_year now ->
      fetch_outcome cfg pool_h (Raise e)
        [ntp_event cfg pool_h (Ok ntp); EvDatetime ntp (Ok now);
         EvRTCSet now (Raise e)]
  | fo_no_interval ntp now :
      c_require_year cfg <= tm_year now ->
      c_interval cfg <= 0 ->
      fetch_outcome cfg pool_h (Ok (now, PNone))
        [ntp_event cfg pool_h (Ok ntp); EvDatetime ntp (Ok now);
         EvRTCSet now (Ok tt)]
  | fo_interval ntp now t :
      c_require_year cfg <= tm_year now ->
      0 < c_interval cfg ->
      fetch_outcome cfg pool_h
        (let? next_sync := py_add t (PInt (c_interval cfg)) in Ok (now, next_sync))
        [ntp_event cfg pool_h (Ok ntp); EvDatetime ntp (Ok now);
         EvRTCSet now (Ok tt); EvTime t].

(** The value of a numeric environment variable as the claims word it: the
    variable's value when it is set, not empty and converts; the default
    otherwise. *)
Definition env_value_float (env : gmap string pyval) (name : string)
    (d : float) : float :=
  match env !! name with
  | Some v =>
      if in_none_or_empty v then d
      else match py_float v with Ok x => x | Raise _ => d end
  | None => d
  end.

Definition env_value_int (env : gmap string pyval) (name : string)
    (d : Z) : Z :=
  match env !! name with
  | Some v =>
      if in_none_or_empty v then d
      else match py_int v with Ok x => x | Raise _ => d end
  | None => d
  end.

(** A tuning knob as the claims word it: the value supplied in the tuning
    dict (converted to the knob's type by [convert]) when present, else the
    fallback. *)
Definition knob {A} (tuning : option (gmap string pyval))
    (key : string) (convert : pyval -> result A) (fallback : A) : result A :=
  match tuning with
  | Some t => match t !! key with Some v => convert v | None => Ok fallback end
  | None => Ok fallback
  end.

(** The timezone offset as the claims word it. *)
Definition expected_tz_offset (env : gmap string pyval)
    (tz_offset : pyval) : result pyval :=
  py_add (match tz_offset with
          | PNone => PFloat (env_value_float env "NTP_TZ" float_0_0)
          | v => v
          end)
         (PFloat (env_value_float env "NTP_DST" float_0_0)).

(** The settings a call hands to the collaborators are those of [cfg]. *)
Definition uses (cfg : config) (e : event) : Prop :=
  match e with
  | EvSleep secs _ => secs = PFloat (c_retry_delay cfg)
  | EvNTP _ tz server timeout cache _ =>
      tz = c_tz_offset cfg /\ server = c_server cfg /\
      timeout = c_timeout cfg /\ cache = c_cache_seconds cfg
  | _ => True
  end.

(** The variable is not set, or set to the empty string. *)
Definition unset_or_empty (env : gmap string pyval) (name : string)
  : Prop :=
  env !! name = None \/ env !! name = Some (PStr "").

(** The numeric environment variables, by the type [sync_time] reads them
    as. *)
Definition float_variables : list string :=
  ["NTP_TZ"; "NTP_DST"; "NTP_TIMEOUT"; "NTP_DELAY_S"].

Definition int_variables : list string :=
  ["NTP_RETRIES"; "NTP_CACHE_SECONDS"; "NTP_INTERVAL"].

(** A value that is empty or that the conversion refuses. *)
Definition unusable {A} (convert : pyval -> result A) (v : pyval) : Prop :=
  in_none_or_empty v = true \/ is_raise (convert v) = true.

(** The control lines a state holds, in the order [release_pins] visits
    them. *)
Definition acquired_pins (s : _State) : list handle :=
  omap id [cs s; rdy s; rst s].

(** The calls that build every handle anew. *)
Definition fresh_setup (spi_h cs_h rdy_h rst_h esp_h pool_h : handle)
  : list event :=
  [EvSPI (Ok spi_h); EvDigitalInOut ESP_CS (Ok cs_h);
   EvDigitalInOut ESP_BUSY (Ok rdy_h); EvDigitalInOut ESP_RESET (Ok rst_h);
   EvESP spi_h cs_h rdy_h rst_h (Ok esp_h); EvPool esp_h (Ok pool_h)].

(** [k] consecutive turns of the loop of lines 156-162 in which
    [sync_time()] raises, started with history [h] and state [s]: the calls
    of each turn ([sync_time]'s own, the print of the exception, the wait
    of one second) and the state they leave; [None] if one of the [k]
    calls succeeds. *)
Fixpoint failed_rounds (X : Platform) (env : gmap string pyval)
    (k : nat) (h : list event) (s : _State) : option (list event * _State) :=
  match k with
  | O => Some ([], s)
  | S k' =>
      let run := sync_time X env PNone PNone None h s in
      match run.1.1 with
      | Ok _ => None
      | Raise ex =>
          let turn := run.2 ++ [EvPrint [PrStr "Exception:"; PrExn ex];
                                EvSleep (PInt 1) (Ok tt)] in
          match failed_rounds X env k' (h ++ turn) run.1.2 with
          | Some (rest, s') => Some (turn ++ rest, s')
          | None => None
          end
      end
  end.

Definition banner : event := EvPrint [PrStr "Fetching time via NTP."].

Definition report (lt : struct_time) : list event :=
  [EvLocaltime lt; EvPrint [PrStr "NTP OK, localtime:"; PrTime lt]].

End Vocabulary.

(** * The example script and further vocabulary *)
Section Further.
Context `{PyBuiltins}.

(** [examples/fruitjam_ntp.py]: [now, next_sync = sync_time()] followed by
    [print("RTC set:", now)]. *)
Definition fruitjam_ntp (X : Platform) (env : gmap string pyval) : M unit :=
  let* synced := sync_time X env PNone PNone None in
  print [PrStr "RTC set:"; PrTime synced.1].

(** Calls of lines 126-140. *)
Definition is_clock_call (e : event) : Prop :=
  match e with
  | EvNTP _ _ _ _ _ _ | EvDatetime _ _ | EvRTCSet _ _ | EvTime _ => True
  | _ => False
  end.

(** A connection attempt that went through: the radio was connected
    already, or [connect_AP] returned. *)
Definition is_association (e : event) : Prop :=
  match e with
  | EvIsConnected _ (Ok true) | EvConnectAP _ _ _ (Ok _) => True
  | _ => False
  end.

(** Every handle cached in [s] is the same in [s']. *)
Definition keeps_handles (s s' : _State) : Prop :=
  (forall x, spi s = Some x -> spi s' = Some x) /\
  (forall x, cs s = Some x -> cs s' = Some x) /\
  (forall x, rdy s = Some x -> rdy s' = Some x) /\
  (forall x, rst s = Some x -> rst s' = Some x) /\
  (forall x, esp s = Some x -> esp s' = Some x) /\
  (forall x, pool s = Some x -> pool s' = Some x).

(** A constructor call: the field of [_state] its object belongs in, and
    its answer. *)
Definition built (e : event) : option ((_State -> option handle) * result handle) :=
  match e with
  | EvSPI r => Some (spi, r)
  | EvDigitalInOut ESP_CS r => Some (cs, r)
  | EvDigitalInOut ESP_BUSY r => Some (rdy, r)
  | EvDigitalInOut ESP_RESET r => Some (rst, r)
  | EvESP _ _ _ _ r => Some (esp, r)
  | EvPool _ r => Some (pool, r)
  | _ => None
  end.

(** A call of the connection loop made on the radio [esp_h] with the
    credentials [ssid] and [pw]. *)
Definition on_radio (esp_h : handle) (ssid pw : pyval) (e : event) : Prop :=
  match e with
  | EvIsConnected e' _ | EvReset e' _ => e' = esp_h
  | EvConnectAP e' ssid' pw' _ => e' = esp_h /\ ssid' = ssid /\ pw' = pw
  | EvSleep _ _ => True
  | _ => False
  end.

(** The names [sync_time] looks up in the environment, and the keys it
    looks up in the tuning dict. *)
Definition settings : list string :=
  ["CIRCUITPY_WIFI_SSID"; "CIRCUITPY_WIFI_PASSWORD"; "NTP_SERVER"; "NTP_TZ";
   "NTP_DST"; "NTP_TIMEOUT"; "NTP_RETRIES"; "NTP_DELAY_S"; "NTP_CACHE_SECONDS";
   "NTP_INTERVAL"].

Definition tuning_keys : list string :=
  ["timeout"; "retries"; "retry_delay"; "cache_seconds"; "require_year"].

(** The tuning keys with the conversion [sync_time] applies to each. *)
Definition converts (key : string) (v : pyval) : bool :=
  if String.eqb key "timeout" || String.eqb key "retry_delay"
  then is_ok (py_float v)
  else if String.eqb key "retries" || String.eqb key "cache_seconds"
          || String.eqb key "require_year"
  then is_ok (py_int v)
  else true.

(** One turn of [setup_ntp]'s loop when the credentials are missing. *)
Definition unconfigured_turn : list event :=
  [EvPrint [PrStr "Exception:"; PrExn missing_credentials];
   EvSleep (PInt 1) (Ok tt)].

End Further.

(** * A concrete runtime and scripted platforms

    Used to run the module on concrete inputs.  Exact rationals stand in
    for floats, and decimal literals are parsed exactly. *)
Module Demo.

Definition digit_of (c : ascii) : option Z :=
  let n := Z.of_nat (nat_of_ascii c) in
  if (48 <=? n) && (n <=? 57) then Some (n - 48) else None.

Fixpoint digits (s : string) (acc : Z) : option Z :=
  match s with
  | EmptyString => Some acc
  | String c r =>
      match digit_of c with
      | Some d => digits r (10 * acc + d)
      | None => None
      end
  end.

Definition unsigned (s : string) : option Z :=
  match s with EmptyString => None | _ => digits s 0 end.

Definition split_sign (s : string) : Z * string :=
  match s with
  | String "-" r => (-1, r)
  | String "+" r => (1, r)
  | _ => (1, s)
  end.

Fixpoint split_dot (s : string) : string * option string :=
  match s with
  | EmptyString => (EmptyString, None)
  | String "." r => (EmptyString, Some r)
  | String c r => let '(a, b) := split_dot r in (String c a, b)
  end.

Definition parse_int (s : string) : option Z :=
  let '(sign, body) := split_sign s in
  match unsigned body with Some n => Some (sign * n) | None => None end.

Definition parse_decimal (s : string) : option Q :=
  let '(sign, body) := split_sign s in
  match split_dot body with
  | (ip, None) =>
      match unsigned ip with Some n => Some (inject_Z (sign * n)) | None => None end
  | (ip, Some fp) =>
      match unsigned ip, unsigned fp with
      | Some n, Some f =>
          let scale := 10 ^ Z.of_nat (String.length fp) in
          Some (Qred (Qmake (sign * (n * scale + f)) (Z.to_pos scale)))
      | _, _ => None
      end
  end.

Definition or_value_error {A} (what : string) (o : option A) : result A :=
  match o with Some a => Ok a | None => Raise (Exn ValueError what) end.

#[global] Instance rational : PyFloat := Q.

#[global] Instance builtins : PyBuiltins := {|
  float_0_0 := inject_Z 0;
  float_1_0 := inject_Z 1;
  float_5_0 := inject_Z 5;
  float_add := fun a b => Qred (Qplus a b);
  float_nonzero := fun q => negb (Z.eqb (Qnum q) 0);
  float_negative := fun q => Qnum q <? 0;
  float_of_int := fun z => Ok (inject_Z z);
  float_of_str := fun s => or_value_error "invalid syntax for number" (parse_decimal s);
  int_of_float := fun q => Ok (Z.quot (Qnum q) (Zpos (Qden q)));
  int_of_str := fun s => or_value_error "invalid syntax for integer" (parse_int s)
|}.

(** How a scripted platform answers: the [n]-th [connect_AP] and the
    [n]-th [reset] (counting from 0), each [deinit], the NTP fetch and the
    clock.  Constructors always succeed and hand out a fresh object. *)
Record script := {
  on_connect : nat -> result unit;
  on_reset : nat -> result unit;
  on_deinit : handle -> result unit;
  on_datetime : result struct_time;
  clock : pyval
}.

Definition connects (h : list event) : nat :=
  length (List.filter (fun e => match e with EvConnectAP _ _ _ _ => true | _ => false end) h).

Definition associated (h : list event) : bool :=
  existsb (fun e => match e with EvConnectAP _ _ _ (Ok _) => true | _ => false end) h.

Definition platform (sc : script) : Platform := {|
  board_SPI := fun h => Ok (length h);
  DigitalInOut := fun h _ => Ok (length h);
  ESP_SPIcontrol := fun h _ _ _ _ => Ok (length h);
  get_radio_socketpool := fun h _ => Ok (length h);
  esp_is_connected := fun h _ => Ok (associated h);
  esp_connect_AP := fun h _ _ _ => on_connect sc (connects h);
  esp_reset := fun h _ => on_reset sc (resets h);
  adafruit_ntp_NTP := fun h _ _ _ _ _ => Ok (length h);
  ntp_datetime := fun _ _ => on_datetime sc;
  rtc_set_datetime := fun _ _ => Ok tt;
  time_time := fun _ => clock sc;
  time_localtime := fun _ =>
    match on_datetime sc with
    | Ok t => t
    | Raise _ => Build_struct_time 2000 1 1 0 0 0 5 1 (-1)
    end;
  pin_deinit := fun _ p => on_deinit sc p
|}.

Definition noon (year : Z) : struct_time :=
  Build_struct_time year 11 3 12 0 0 0 307 (-1).

(** Everything works; the server reports a time in [year]. *)
Definition healthy (year : Z) : script := {|
  on_connect := fun _ => Ok tt;
  on_reset := fun _ => Ok tt;
  on_deinit := fun _ => Ok tt;
  on_datetime := Ok (noon year);
  clock := PInt 1762171200
|}.

(** The first [n] connection attempts fail with [e]. *)
Definition flaky (n : nat) (e : exn) (year : Z) : script := {|
  on_connect := fun k => if (k <? n)%nat then Raise e else Ok tt;
  on_reset := fun _ => Ok tt;
  on_deinit := fun _ => Ok tt;
  on_datetime := Ok (noon year);
  clock := PInt 1762171200
|}.

(** Releasing the pin object [bad] fails. *)
Definition stuck_pin (bad : handle) : script := {|
  on_connect := fun _ => Ok tt;
  on_reset := fun _ => Ok tt;
  on_deinit := fun p =>
    if (p =? bad)%nat then Raise (Exn ValueError "Object has been deinitialized")
    else Ok tt;
  on_datetime := Ok (noon 2025);
  clock := PInt 1762171200
|}.

Definition wifi : gmap string pyval :=
  {[ "CIRCUITPY_WIFI_SSID" := PStr "fruitjam";
     "CIRCUITPY_WIFI_PASSWORD" := PStr "hunter2hunter2" ]}.

(** What [sync_time()] resolves when only the credentials are set. *)
Definition defaults : config := {|
  c_server := PStr "pool.ntp.org";
  c_tz_offset := PFloat (inject_Z 0);
  c_timeout := inject_Z 5;
  c_retries := 2;
  c_retry_delay := inject_Z 1;
  c_cache_seconds := 0;
  c_require_year := 2022;
  c_interval := 0
|}.

(** A platform whose radio is associated from the start. *)
Definition online : Platform := {|
  board_SPI := fun h => Ok (length h);
  DigitalInOut := fun h _ => Ok (length h);
  ESP_SPIcontrol := fun h _ _ _ _ => Ok (length h);
  get_radio_socketpool := fun h _ => Ok (length h);
  esp_is_connected := fun _ _ => Ok true;
  esp_connect_AP := fun _ _ _ _ => Raise (Exn OSError "not reached");
  esp_reset := fun _ _ => Ok tt;
  adafruit_ntp_NTP := fun h _ _ _ _ _ => Ok (length h);
  ntp_datetime := fun _ _ => Ok (noon 2025);
  rtc_set_datetime := fun _ _ => Ok tt;
  time_time := fun _ => PInt 1762171200;
  time_localtime := fun _ => noon 2025;
  pin_deinit := fun _ _ => Ok tt
|}.

(** The BUSY line is still claimed: its [DigitalInOut] raises. *)
Definition busy_line : Platform := {|
  board_SPI := fun h => Ok (length h);
  DigitalInOut := fun h p =>
    match p with
    | ESP_BUSY => Raise (Exn ValueError "ESP_BUSY in use")
    | _ => Ok (length h)
    end;
  ESP_SPIcontrol := fun h _ _ _ _ => Ok (length h);
  get_radio_socketpool := fun h _ => Ok (length h);
  esp_is_connected := fun _ _ => Ok true;
  esp_connect_AP := fun _ _ _ _ => Ok tt;
  esp_reset := fun _ _ => Ok tt;
  adafruit_ntp_NTP := fun h _ _ _ _ _ => Ok (length h);
  ntp_datetime := fun _ _ => Ok (noon 2025);
  rtc_set_datetime := fun _ _ => Ok tt;
  time_time := fun _ => PInt 1762171200;
  time_localtime := fun _ => noon 2025;
  pin_deinit := fun _ _ => Ok tt
|}.

(** The time server cannot be reached. *)
Definition unreachable : script := {|
  on_connect := fun _ => Ok tt;
  on_reset := fun _ => Ok tt;
  on_deinit := fun _ => Ok tt;
  on_datetime := Raise (Exn OSError "ETIMEDOUT");
  clock := PInt 1762171200
|}.

End Demo.


(** * Properties *)

(** ** Reading the environment *)
Section Environment.
Context `{PyBuiltins}.
Implicit Types (env : gmap string pyval) (v : pyval).

Lemma _env_float_unset env name d :
  in_none_or_empty (getenv env name) = true ->
  _env_float env name (PFloat d) = Ok d.
Proof. unfold _env_float. intros ->. reflexivity. Qed.

Lemma _env_float_unusable env name d :
  is_raise (py_float (getenv env name)) = true ->
  _env_float env name (PFloat d) = Ok d.
Proof.
  unfold _env_float. intros E.
  destruct (in_none_or_empty (getenv env name)); simpl; [reflexivity|].
  destruct (py_float (getenv env name)); [discriminate E | reflexivity].
Qed.

Lemma _env_float_set env name d x :
  in_none_or_empty (getenv env name) = false ->
  py_float (getenv env name) = Ok x ->
  _env_float env name (PFloat d) = Ok x.
Proof. unfold _env_float. intros -> ->. reflexivity. Qed.

Lemma _env_int_unset env name d :
  in_none_or_empty (getenv env name) = true ->
  _env_int env name (PInt d) = Ok d.
Proof. unfold _env_int. intros ->. reflexivity. Qed.

Lemma _env_int_unusable env name d :
  is_raise (py_int (getenv env name)) = true ->
  _env_int env name (PInt d) = Ok d.
Proof.
  unfold _env_int. intros E.
  destruct (in_none_or_empty (getenv env name)); simpl; [reflexivity|].
  destruct (py_int (getenv env name)); [discriminate E | reflexivity].
Qed.

Lemma _env_int_set env name d x :
  in_none_or_empty (getenv env name) = false ->
  py_int (getenv env name) = Ok x ->
  _env_int env name (PInt d) = Ok x.
Proof. unfold _env_int. intros -> ->. reflexivity. Qed.

(** With a numeric default the readers never raise. *)
Lemma _env_float_total env name d : exists x, _env_float env name (PFloat d) = Ok x.
Proof.
  unfold _env_float.
  destruct (in_none_or_empty (getenv env name)); simpl; [eauto|].
  destruct (py_float (getenv env name)); simpl; eauto.
Qed.

Lemma _env_int_total env name d : exists x, _env_int env name (PInt d) = Ok x.
Proof.
  unfold _env_int.
  destruct (in_none_or_empty (getenv env name)); simpl; [eauto|].
  destruct (py_int (getenv env name)); simpl; eauto.
Qed.

Lemma getenv_insert_ne env name name' v :
  name <> name' -> getenv (<[name := v]> env) name' = getenv env name'.
Proof. intros Hne. unfold getenv. by rewrite lookup_insert_ne. Qed.

Lemma getenv_delete_ne env name name' :
  name <> name' -> getenv (delete name env) name' = getenv env name'.
Proof. intros Hne. unfold getenv. by rewrite lookup_delete_ne. Qed.

Lemma getenv_insert_eq env name v : getenv (<[name := v]> env) name = v.
Proof. unfold getenv. by rewrite lookup_insert_eq. Qed.

Lemma getenv_delete_eq env name : getenv (delete name env) name = PNone.
Proof. unfold getenv. by rewrite lookup_delete_eq. Qed.

End Environment.

(** ** Which calls a computation can make *)
Section Emits.
Context `{PyBuiltins}.

Lemma emits_ret {A} P (a : A) : emits P (ret a).
Proof. intros h s. constructor. Qed.

Lemma emits_raise {A} P e : emits P (@raise _ A e).
Proof. intros h s. constructor. Qed.

Lemma emits_lift {A} P (r : result A) : emits P (lift r).
Proof. intros h s. constructor. Qed.

Lemma emits_get_state P : emits P get_state.
Proof. intros h s. constructor. Qed.

Lemma emits_modify_state P f : emits P (modify_state f).
Proof. intros h s. constructor. Qed.

Lemma emits_call {A} (P : event -> Prop) (answer : list event -> result A) log :
  (forall r, P (log r)) -> emits P (call answer log).
Proof. intros HP h s. simpl. repeat constructor. apply HP. Qed.

Lemma emits_call_total {A} (P : event -> Prop) (answer : list event -> A) log :
  (forall a, P (log a)) -> emits P (call_total answer log).
Proof. intros HP h s. simpl. repeat constructor. apply HP. Qed.

Lemma emits_bind {A B} P (m : M A) (k : A -> M B) :
  emits P m -> (forall a, emits P (k a)) -> emits P (bind m k).
Proof.
  intros Hm Hk h s. unfold bind.
  specialize (Hm h s). destruct (m h s) as [[r s1] ev1]. simpl in Hm.
  destruct r as [a|e]; [|exact Hm].
  specialize (Hk a (h ++ ev1) s1). destruct (k a (h ++ ev1) s1) as [[r2 s2] ev2].
  simpl in *. apply Forall_app; split; assumption.
Qed.

Lemma emits_try_except {A} P (m : M A) (handler : exn -> M A) :
  emits P m -> (forall e, emits P (handler e)) -> emits P (try_except m handler).
Proof.
  intros Hm Hk h s. unfold try_except.
  specialize (Hm h s). destruct (m h s) as [[r s1] ev1]. simpl in Hm.
  destruct r as [a|e]; [exact Hm|].
  specialize (Hk e (h ++ ev1) s1). destruct (handler e (h ++ ev1) s1) as [[r2 s2] ev2].
  simpl in *. apply Forall_app; split; assumption.
Qed.

Lemma pure_state_ret {A} (a : A) : pure_state (ret a).
Proof. intros h s. reflexivity. Qed.

Lemma pure_state_raise {A} e : pure_state (@raise _ A e).
Proof. intros h s. reflexivity. Qed.

Lemma pure_state_lift {A} (r : result A) : pure_state (lift r).
Proof. intros h s. reflexivity. Qed.

Lemma pure_state_call {A} (answer : list event -> result A) log :
  pure_state (call answer log).
Proof. intros h s. reflexivity. Qed.

Lemma pure_state_call_total {A} (answer : list event -> A) log :
  pure_state (call_total answer log).
Proof. intros h s. reflexivity. Qed.

Lemma pure_state_bind {A B} (m : M A) (k : A -> M B) :
  pure_state m -> (forall a, pure_state (k a)) -> pure_state (bind m k).
Proof.
  intros Hm Hk h s. unfold bind.
  specialize (Hm h s). destruct (m h s) as [[r s1] ev1]. simpl in Hm. subst s1.
  destruct r as [a|e]; [|reflexivity].
  specialize (Hk a (h ++ ev1) s). destruct (k a (h ++ ev1) s) as [[r2 s2] ev2].
  exact Hk.
Qed.

Lemma pure_state_try_except {A} (m : M A) (handler : exn -> M A) :
  pure_state m -> (forall e, pure_state (handler e)) ->
  pure_state (try_except m handler).
Proof.
  intros Hm Hk h s. unfold try_except.
  specialize (Hm h s). destruct (m h s) as [[r s1] ev1]. simpl in Hm. subst s1.
  destruct r as [a|e]; [reflexivity|].
  specialize (Hk e (h ++ ev1) s). destruct (handler e (h ++ ev1) s) as [[r2 s2] ev2].
  exact Hk.
Qed.

Lemma omap_nothing {A} (f : event -> option A) (P : event -> Prop) evs :
  (forall e, P e -> f e = None) -> Forall P evs -> omap f evs = [].
Proof.
  intros Hf. induction 1 as [|e evs He _ IH]; simpl; [reflexivity|].
  rewrite (Hf e He). exact IH.
Qed.

Lemma filter_nothing (f : event -> bool) (P : event -> Prop) evs :
  (forall e, P e -> f e = false) -> Forall P evs -> List.filter f evs = [].
Proof.
  intros Hf. induction 1 as [|e evs He _ IH]; simpl; [reflexivity|].
  rewrite (Hf e He). exact IH.
Qed.

End Emits.

Create HintDb emits.
#[local] Hint Resolve emits_ret emits_raise emits_lift emits_get_state
  emits_modify_state emits_call emits_call_total emits_bind emits_try_except
  : emits.
#[local] Hint Resolve pure_state_ret pure_state_raise pure_state_lift
  pure_state_call pure_state_call_total pure_state_bind pure_state_try_except
  : emits.

Section Phases.
Context `{PyBuiltins} (X : Platform).

Lemma emits_ensure_field field store (answer : list event -> result handle) log :
  (forall r, is_setup (log r)) ->
  emits is_setup (ensure_field field store (call answer log)).
Proof.
  intros Hlog. unfold ensure_field.
  apply emits_bind; [auto with emits|]. intros st.
  destruct (field st); auto 10 with emits.
Qed.

Lemma emits_ensure_radio : emits is_setup (_ensure_radio X).
Proof.
  unfold _ensure_radio.
  apply emits_bind; [auto with emits|]. intros st.
  destruct (esp st), (pool st); try apply emits_ret;
    repeat (apply emits_bind; [apply emits_ensure_field; intros; exact I|intros]);
    apply emits_ret.
Qed.

(** *** The connection loop *)

Lemma connect_attempt_run e ssid pw h s :
  let '(r, s', ev) := connect_attempt X e ssid pw h s in
  s' = s /\ attempts ev = 1%nat /\ Forall is_radio ev /\
  resets ev = 0%nat /\
  failures ev = match r with Ok _ => [] | Raise x => [x] end /\
  steps ev = match r with Ok _ => [] | Raise x => [SFailed x] end.
Proof.
  unfold connect_attempt, bind, call, ret. simpl.
  destruct (esp_is_connected X h e) as [[|]|x]; simpl.
  - repeat split; repeat constructor.
  - destruct (esp_connect_AP X _ e ssid pw) as [[]|x]; simpl;
      repeat split; repeat constructor.
  - repeat split; repeat constructor.
Qed.

Lemma attempts_app (a b : list event) : attempts (a ++ b) = (attempts a + attempts b)%nat.
Proof. unfold attempts. by rewrite List.filter_app, length_app. Qed.

Lemma failures_app (a b : list event) : failures (a ++ b) = failures a ++ failures b.
Proof. apply omap_app. Qed.

Lemma resets_app (a b : list event) : resets (a ++ b) = (resets a + resets b)%nat.
Proof. unfold resets. by rewrite List.filter_app, length_app. Qed.

Lemma steps_app (a b : list event) : steps (a ++ b) = steps a ++ steps b.
Proof. apply omap_app. Qed.

(** One pass of lines 112-124 on the attempts [a :: rest]. *)
Lemma connect_loop_step e ssid pw retries delay a rest h s :
  connect_loop X e ssid pw retries delay (a :: rest) h s =
  let '(r0, s0, ev0) := connect_attempt X e ssid pw h s in
  match r0 with
  | Ok _ => (Ok tt, s0, ev0)
  | Raise x =>
      if a >=? retries then (Raise x, s0, ev0)
      else
        let reset := EvReset e (esp_reset X (h ++ ev0) e) in
        let '(rs, s1, ev1) := time_sleep (PFloat delay) ((h ++ ev0) ++ [reset]) s0 in
        match rs with
        | Raise y => (Raise y, s1, ev0 ++ reset :: ev1)
        | Ok _ =>
            let '(r2, s2, ev2) :=
              connect_loop X e ssid pw retries delay rest
                           (((h ++ ev0) ++ [reset]) ++ ev1) s1 in
            (r2, s2, ev0 ++ reset :: ev1 ++ ev2)
        end
  end.
Proof.
  simpl. unfold try_except at 1.
  destruct (connect_attempt X e ssid pw h s) as [[r0 s0] ev0].
  destruct r0 as [[]|x]; [reflexivity|].
  destruct (a >=? retries); [unfold raise; by rewrite app_nil_r|].
  unfold bind, try_except, call, ret. simpl.
  destruct (esp_reset X (h ++ ev0) e) as [[]|y]; simpl;
    rewrite ?app_nil_r;
    destruct (float_negative delay); simpl; try reflexivity;
    match goal with
    | |- context [connect_loop X e ssid pw retries delay rest ?h' s0] =>
        destruct (connect_loop X e ssid pw retries delay rest h' s0) as [[r2 s2] ev2]
    end; reflexivity.
Qed.

Lemma time_sleep_run secs h s :
  exists r, time_sleep secs h s = (r, s, [EvSleep secs r]).
Proof. unfold time_sleep, call. eauto. Qed.

Lemma loop_call_radio delay e : loop_call delay e -> is_radio e.
Proof. destruct e; simpl; auto. Qed.

Lemma emits_connect_attempt delay e ssid pw :
  emits (loop_call delay) (connect_attempt X e ssid pw).
Proof.
  unfold connect_attempt. apply emits_bind; [by apply emits_call|].
  intros c. destruct c; simpl; [apply emits_ret | by apply emits_call].
Qed.

Lemma emits_connect_loop e ssid pw retries delay l :
  emits (loop_call delay) (connect_loop X e ssid pw retries delay l).
Proof.
  induction l as [|a rest IH]; simpl; [apply emits_ret|].
  apply emits_try_except; [apply emits_connect_attempt|].
  intros x. destruct (a >=? retries); [apply emits_raise|].
  apply emits_bind.
  { apply emits_try_except; [by apply emits_call | intros; apply emits_ret]. }
  intros _. apply emits_bind; [by apply emits_call | intros; exact IH].
Qed.

Lemma pure_state_connect_loop e ssid pw retries delay l :
  pure_state (connect_loop X e ssid pw retries delay l).
Proof.
  induction l as [|a rest IH]; simpl; [apply pure_state_ret|].
  apply pure_state_try_except.
  { unfold connect_attempt. apply pure_state_bind; [apply pure_state_call|].
    intros c. destruct c; simpl; auto with emits. }
  intros x. destruct (a >=? retries); [apply pure_state_raise|].
  apply pure_state_bind.
  { apply pure_state_try_except; auto with emits. }
  intros _. apply pure_state_bind; [apply pure_state_call | intros; exact IH].
Qed.

(** The loop makes at most one attempt per element of the range, and each
    attempt fails at most once. *)
Lemma connect_loop_bound e ssid pw retries delay l h s :
  let ev := (connect_loop X e ssid pw retries delay l h s).2 in
  (attempts ev <= length l)%nat /\ (length (failures ev) <= attempts ev)%nat.
Proof.
  revert h s. induction l as [|a rest IH]; intros h s.
  { simpl. split; reflexivity. }
  rewrite connect_loop_step.
  pose proof (connect_attempt_run e ssid pw h s) as Ha.
  destruct (connect_attempt X e ssid pw h s) as [[r0 s0] ev0].
  destruct Ha as (-> & Hatt & _ & _ & Hfail & _).
  destruct r0 as [[]|x].
  { simpl. rewrite Hatt, Hfail. simpl. lia. }
  destruct (a >=? retries).
  { simpl. rewrite Hatt, Hfail. simpl. lia. }
  cbv zeta.
  destruct (time_sleep_run (PFloat delay) ((h ++ ev0) ++ [EvReset e (esp_reset X (h ++ ev0) e)]) s)
    as [rs ->].
  destruct rs as [[]|y].
  - specialize (IH (((h ++ ev0) ++ [EvReset e (esp_reset X (h ++ ev0) e)]) ++
                     [EvSleep (PFloat delay) (Ok ())]) s).
    destruct (connect_loop X e ssid pw retries delay rest _ s) as [[r2 s2] ev2].
    simpl in IH. simpl.
    rewrite attempts_app, failures_app, length_app, Hatt, Hfail. simpl.
    unfold attempts in *. simpl. lia.
  - simpl. rewrite attempts_app, failures_app, length_app, Hatt, Hfail. simpl.
    unfold attempts. simpl. lia.
Qed.

Lemma connect_loop_exhausted e ssid pw retries delay n : forall k h s,
  Z.of_nat (k + n) = retries + 1 ->
  (1 <= n)%nat ->
  let '(r, _, ev) :=
    connect_loop X e ssid pw retries delay (map Z.of_nat (seq k n)) h s in
  length (failures ev) = n ->
  exists x, r = Raise x /\ last (failures ev) = Some x /\
            resets ev = (n - 1)%nat /\
            exists xs, length xs = (n - 1)%nat /\
                       steps ev = concat (map (retried delay) xs) ++ [SFailed x].
Proof.
  induction n as [|n IH]; intros k h s Hk Hn; [lia|].
  simpl seq. simpl map. rewrite connect_loop_step.
  pose proof (connect_attempt_run e ssid pw h s) as Ha.
  destruct (connect_attempt X e ssid pw h s) as [[r0 s0] ev0].
  destruct Ha as (-> & Hatt & _ & Hres & Hfail & Hsteps).
  destruct r0 as [[]|x].
  { rewrite Hfail. discriminate. }
  destruct (Z.geb_spec (Z.of_nat k) retries) as [Hlast|Hmore].
  { assert (n = 0%nat) as -> by lia.
    rewrite Hfail, Hres, Hsteps. intros _. exists x.
    repeat split. by exists []. }
  cbv zeta.
  destruct (time_sleep_run (PFloat delay)
              ((h ++ ev0) ++ [EvReset e (esp_reset X (h ++ ev0) e)]) s) as [rs ->].
  destruct rs as [[]|y].
  - specialize (IH (S k) (((h ++ ev0) ++ [EvReset e (esp_reset X (h ++ ev0) e)]) ++
                           [EvSleep (PFloat delay) (Ok ())]) s).
    destruct (connect_loop X e ssid pw retries delay (map Z.of_nat (seq (S k) n)) _ s)
      as [[r2 s2] ev2].
    rewrite failures_app, length_app, Hfail. simpl. intros Hlen.
    destruct IH as (x' & -> & Hlast & Hr & xs & Hxs & Hst); [lia | lia | lia |].
    exists x'. split; [reflexivity|]. split.
    { destruct (failures ev2) as [|f fs] eqn:E; [discriminate Hlast|].
      exact Hlast. }
    split.
    + rewrite resets_app, Hres. unfold resets in *. simpl. rewrite Hr. lia.
    + exists (x :: xs). split; [simpl; lia|].
      rewrite steps_app, Hsteps.
      change (steps (?a :: ?b :: ev2)) with (steps [a; b] ++ steps ev2).
      rewrite Hst. reflexivity.
  - rewrite failures_app, length_app, Hfail. simpl. intros Hlen. lia.
Qed.

Lemma range_shape (retries : Z) :
  0 <= retries ->
  Z.of_nat (0 + Z.to_nat (retries + 1)) = retries + 1 /\
  (1 <= Z.to_nat (retries + 1))%nat.
Proof. lia. Qed.

(** *** Fetching and setting the clock *)

Lemma fetch_and_set_run cfg pool_h h s :
  let '(r, s', ev) := fetch_and_set X cfg pool_h h s in
  s' = s /\ fetch_outcome cfg pool_h r ev.
Proof.
  unfold fetch_and_set, bind, call, call_total, lift, ret, raise. simpl.
  destruct (adafruit_ntp_NTP X h pool_h _ _ _ _) as [ntp|e]; simpl.
  2: { split; [reflexivity|apply fo_client_fails]. }
  destruct (ntp_datetime X _ ntp) as [now|e]; simpl.
  2: { split; [reflexivity|apply fo_fetch_fails]. }
  destruct (Z.ltb_spec (tm_year now) (c_require_year cfg)) as [Hold|Hyear]; simpl.
  { split; [reflexivity|by apply fo_year_refused]. }
  destruct (rtc_set_datetime X _ now) as [[]|e]; simpl.
  2: { split; [reflexivity|by apply fo_rtc_fails]. }
  destruct (Z.gtb_spec (c_interval cfg) 0) as [Hpos|Hoff]; simpl.
  - match goal with
    | |- context [py_add ?t _] =>
        pose proof (fo_interval cfg pool_h ntp now t Hyear) as Ho
    end.
    destruct (py_add _ (PInt (c_interval cfg))); simpl in *;
      (split; [reflexivity|apply Ho; lia]).
  - split; [reflexivity|]. apply fo_no_interval; [assumption|lia].
Qed.

(** *** The whole call *)

(** [sync_time] once the credentials are present and the configuration
    resolved: the three phases in sequence, each phase's calls appended to
    the history seen by the next. *)
Lemma sync_time_run env server tz tuning cfg h s :
  truthy (getenv env "CIRCUITPY_WIFI_SSID") = true ->
  truthy (getenv env "CIRCUITPY_WIFI_PASSWORD") = true ->
  sync_config env server tz tuning = Ok cfg ->
  sync_time X env server tz tuning h s =
  let '(r1, s1, ev1) := _ensure_radio X h s in
  match r1 with
  | Raise e => (Raise e, s1, ev1)
  | Ok radio =>
      let '(r2, s2, ev2) :=
        connect_loop X radio.1 (getenv env "CIRCUITPY_WIFI_SSID")
          (getenv env "CIRCUITPY_WIFI_PASSWORD") (c_retries cfg)
          (c_retry_delay cfg) (range (c_retries cfg + 1)) (h ++ ev1) s1 in
      match r2 with
      | Raise e => (Raise e, s2, ev1 ++ ev2)
      | Ok _ =>
          let '(r3, s3, ev3) :=
            fetch_and_set X cfg radio.2 ((h ++ ev1) ++ ev2) s2 in
          (r3, s3, ev1 ++ ev2 ++ ev3)
      end
  end.
Proof.
  intros Hssid Hpw Hcfg. unfold sync_time. rewrite Hssid, Hpw, Hcfg. simpl.
  unfold bind at 1. unfold lift at 1. rewrite app_nil_r.
  unfold bind at 1.
  destruct (_ensure_radio X h s) as [[r1 s1] ev1].
  destruct r1 as [radio|e]; [|reflexivity].
  unfold bind at 1.
  destruct (connect_loop X radio.1 _ _ _ _ _ (h ++ ev1) s1) as [[r2 s2] ev2].
  destruct r2 as [[]|e]; [|reflexivity].
  destruct (fetch_and_set X cfg radio.2 ((h ++ ev1) ++ ev2) s2) as [[r3 s3] ev3].
  reflexivity.
Qed.

Lemma sync_time_no_credentials env server tz tuning h s :
  truthy (getenv env "CIRCUITPY_WIFI_SSID") = false \/
  truthy (getenv env "CIRCUITPY_WIFI_PASSWORD") = false ->
  sync_time X env server tz tuning h s = (Raise missing_credentials, s, []).
Proof.
  intros [E|E]; unfold sync_time; rewrite E; simpl; [reflexivity|].
  rewrite orb_true_r. reflexivity.
Qed.

Lemma sync_time_bad_config env server tz tuning e h s :
  truthy (getenv env "CIRCUITPY_WIFI_SSID") = true ->
  truthy (getenv env "CIRCUITPY_WIFI_PASSWORD") = true ->
  sync_config env server tz tuning = Raise e ->
  sync_time X env server tz tuning h s = (Raise e, s, []).
Proof.
  intros Hssid Hpw Hcfg. unfold sync_time. rewrite Hssid, Hpw, Hcfg. reflexivity.
Qed.

(** What a run of [sync_time] looks like once the credentials are
    present and the configuration is resolved: the calls of the three
    phases in order, with what is known of each. *)
Lemma sync_time_phases env server tz tuning cfg h s :
  truthy (getenv env "CIRCUITPY_WIFI_SSID") = true ->
  truthy (getenv env "CIRCUITPY_WIFI_PASSWORD") = true ->
  sync_config env server tz tuning = Ok cfg ->
  let '(r, _, new) := sync_time X env server tz tuning h s in
  exists ev1 ev2 ev3,
    new = ev1 ++ ev2 ++ ev3 /\
    Forall is_setup ev1 /\
    Forall (loop_call (c_retry_delay cfg)) ev2 /\
    (attempts ev2 <= Z.to_nat (c_retries cfg + 1))%nat /\
    (length (failures ev2) <= attempts ev2)%nat /\
    (0 <= c_retries cfg ->
     length (failures ev2) = Z.to_nat (c_retries cfg + 1) ->
     exists x, r = Raise x /\ last (failures ev2) = Some x /\
       resets ev2 = Z.to_nat (c_retries cfg) /\
       exists xs, length xs = Z.to_nat (c_retries cfg) /\
                  steps ev2 = concat (map (retried (c_retry_delay cfg)) xs)
                              ++ [SFailed x]) /\
    ((ev3 = [] /\ is_raise r = true) \/ exists pool_h, fetch_outcome cfg pool_h r ev3).
Proof.
  intros Hssid Hpw Hcfg. rewrite (sync_time_run _ _ _ _ cfg) by assumption.
  pose proof (emits_ensure_radio h s) as H1.
  destruct (_ensure_radio X h s) as [[r1 s1] ev1]. simpl in H1.
  destruct r1 as [radio|e].
  { set (ssid := getenv env "CIRCUITPY_WIFI_SSID").
    set (pw := getenv env "CIRCUITPY_WIFI_PASSWORD").
    pose proof (emits_connect_loop radio.1 ssid pw (c_retries cfg)
                  (c_retry_delay cfg) (range (c_retries cfg + 1)) (h ++ ev1) s1) as H2.
    pose proof (connect_loop_bound radio.1 ssid pw (c_retries cfg)
                  (c_retry_delay cfg) (range (c_retries cfg + 1)) (h ++ ev1) s1) as H3.
    pose proof (connect_loop_exhausted radio.1 ssid pw (c_retries cfg)
                  (c_retry_delay cfg) (Z.to_nat (c_retries cfg + 1)) 0 (h ++ ev1) s1) as H4.
    fold (range (c_retries cfg + 1)) in H4.
    destruct (connect_loop X radio.1 ssid pw _ _ _ (h ++ ev1) s1) as [[r2 s2] ev2].
    simpl in H2, H3. destruct H3 as [Hatt Hfail].
    unfold range in Hatt. rewrite length_map, length_seq in Hatt.
    destruct r2 as [[]|e].
    - pose proof (fetch_and_set_run cfg radio.2 ((h ++ ev1) ++ ev2) s2) as H5.
      destruct (fetch_and_set X cfg radio.2 ((h ++ ev1) ++ ev2) s2) as [[r3 s3] ev3].
      destruct H5 as [_ H5].
      exists ev1, ev2, ev3. repeat split; try assumption.
      + intros Hr Hlen. destruct (range_shape _ Hr) as [Hk Hn].
        destruct (H4 Hk Hn Hlen) as (x & Hx & _). discriminate Hx.
      + right. by exists radio.2.
    - exists ev1, ev2, []. rewrite app_nil_r. repeat split; try assumption.
      + intros Hr Hlen. destruct (range_shape _ Hr) as [Hk Hn].
        destruct (H4 Hk Hn Hlen) as (x & Hx & Hlast & Hres & xs & Hxs & Hst).
        injection Hx as <-.
        exists e. split; [reflexivity|]. split; [assumption|].
        replace (Z.to_nat (c_retries cfg)) with (Z.to_nat (c_retries cfg + 1) - 1)%nat
          by lia.
        split; [exact Hres|]. by exists xs.
      + by left. }
  exists ev1, [], []. rewrite app_nil_r.
  split; [reflexivity|]. split; [assumption|]. split; [constructor|].
  split; [unfold attempts; simpl; lia|].
  split; [unfold attempts; simpl; lia|]. split; [|by left].
  intros Hr Hlen. simpl in Hlen. lia.
Qed.

End Phases.

(** ** What the calls of one phase say about the others *)
Section Logs.
Context `{PyBuiltins}.

Lemma setup_silent ev :
  Forall is_setup ev ->
  attempts ev = 0%nat /\ failures ev = [] /\
  resets ev = 0%nat /\ rtc_writes ev = [] /\ fetched ev = [] /\ steps ev = [].
Proof.
  intros Hev. unfold attempts, failures, resets, rtc_writes, fetched, steps.
  repeat split;
    first [ erewrite (filter_nothing _ is_setup); [reflexivity| |exact Hev]
          | eapply (omap_nothing _ is_setup); [|exact Hev] ];
    intros [] He; try reflexivity; destruct He.
Qed.

Lemma radio_silent ev :
  Forall is_radio ev -> rtc_writes ev = [] /\ fetched ev = [].
Proof.
  intros Hev. unfold rtc_writes, fetched.
  split; (eapply (omap_nothing _ is_radio); [|exact Hev]);
    intros [] He; try reflexivity; destruct He.
Qed.

Lemma fetch_silent cfg pool_h r ev :
  fetch_outcome cfg pool_h r ev ->
  attempts ev = 0%nat /\ failures ev = [] /\
  resets ev = 0%nat /\ steps ev = [].
Proof. destruct 1; repeat split. Qed.


Lemma rtc_writes_app (a b : list event) :
  rtc_writes (a ++ b) = rtc_writes a ++ rtc_writes b.
Proof. apply omap_app. Qed.

Lemma fetched_app (a b : list event) : fetched (a ++ b) = fetched a ++ fetched b.
Proof. apply omap_app. Qed.

End Logs.

(** ** Resolving the configuration *)

Section Config.
Context `{PyBuiltins}.
Implicit Types (env : gmap string pyval).

Lemma _env_float_value env name d :
  _env_float env name (PFloat d) = Ok (env_value_float env name d).
Proof.
  unfold _env_float, env_value_float, getenv.
  destruct (env !! name) as [v|]; simpl; [|reflexivity].
  destruct (in_none_or_empty v); simpl; [reflexivity|].
  destruct (py_float v); reflexivity.
Qed.

Lemma _env_int_value env name d :
  _env_int env name (PInt d) = Ok (env_value_int env name d).
Proof.
  unfold _env_int, env_value_int, getenv.
  destruct (env !! name) as [v|]; simpl; [|reflexivity].
  destruct (in_none_or_empty v); simpl; [reflexivity|].
  destruct (py_int v); reflexivity.
Qed.

Lemma knob_dict_get {A} tuning key (convert : pyval -> result A) fallback
    (wrap : A -> pyval) :
  convert (wrap fallback) = Ok fallback ->
  convert (dict_get (match tuning with Some d => d | None => ∅ end) key
                    (wrap fallback))
  = knob tuning key convert fallback.
Proof.
  intros Hconv. unfold knob, dict_get.
  destruct tuning as [t|]; [destruct (t !! key)|rewrite lookup_empty]; auto.
Qed.

(** Every field of a resolved configuration, by the source's chain. *)
Lemma sync_config_fields env server tz_offset tuning cfg :
  sync_config env server tz_offset tuning = Ok cfg ->
  c_server cfg = py_or (py_or server (getenv env "NTP_SERVER")) (PStr "pool.ntp.org") /\
  expected_tz_offset env tz_offset = Ok (c_tz_offset cfg) /\
  knob tuning "timeout" py_float (env_value_float env "NTP_TIMEOUT" float_5_0)
    = Ok (c_timeout cfg) /\
  knob tuning "retries" py_int (env_value_int env "NTP_RETRIES" 2)
    = Ok (c_retries cfg) /\
  knob tuning "retry_delay" py_float (env_value_float env "NTP_DELAY_S" float_1_0)
    = Ok (c_retry_delay cfg) /\
  knob tuning "cache_seconds" py_int (env_value_int env "NTP_CACHE_SECONDS" 0)
    = Ok (c_cache_seconds cfg) /\
  knob tuning "require_year" py_int 2022 = Ok (c_require_year cfg) /\
  c_interval cfg = env_value_int env "NTP_INTERVAL" 0.
Proof.
  unfold sync_config, expected_tz_offset.
  rewrite !_env_float_value, !_env_int_value. simpl.
  rewrite !(knob_dict_get tuning _ py_float _ PFloat) by reflexivity.
  rewrite !(knob_dict_get tuning _ py_int _ PInt) by reflexivity.
  intros Hcfg.
  assert (Htz : (match tz_offset with
                 | PNone => Ok (PFloat (env_value_float env "NTP_TZ" float_0_0))
                 | _ => Ok tz_offset
                 end)
                = Ok (match tz_offset with
                      | PNone => PFloat (env_value_float env "NTP_TZ" float_0_0)
                      | v => v
                      end)) by (destruct tz_offset; reflexivity).
  rewrite Htz in Hcfg. simpl in Hcfg.
  destruct (py_add _ _) as [tz|?]; [simpl in Hcfg|discriminate].
  destruct (knob tuning "timeout" _ _) as [timeout|?]; [simpl in Hcfg|discriminate].
  destruct (knob tuning "retries" _ _) as [retries|?]; [simpl in Hcfg|discriminate].
  destruct (knob tuning "retry_delay" _ _) as [delay|?]; [simpl in Hcfg|discriminate].
  destruct (knob tuning "cache_seconds" _ _) as [cache|?]; [simpl in Hcfg|discriminate].
  destruct (knob tuning "require_year" _ _) as [year|?]; [simpl in Hcfg|discriminate].
  injection Hcfg as <-. simpl. repeat split.
Qed.

End Config.

(** ** Arguments handed to the collaborators *)

Lemma sync_time_uses `{PyBuiltins} (X : Platform) (env : gmap string pyval)
    server tz_offset tuning cfg h s :
  sync_config env server tz_offset tuning = Ok cfg ->
  Forall (uses cfg) (sync_time X env server tz_offset tuning h s).2.
Proof.
  intros Hcfg.
  destruct (truthy (getenv env "CIRCUITPY_WIFI_SSID")) eqn:Hssid;
    [destruct (truthy (getenv env "CIRCUITPY_WIFI_PASSWORD")) eqn:Hpw|].
  2,3: rewrite sync_time_no_credentials by auto; constructor.
  pose proof (sync_time_phases X env server tz_offset tuning cfg h s Hssid Hpw Hcfg)
    as Hrun.
  destruct (sync_time X env server tz_offset tuning h s) as [[r s'] new].
  destruct Hrun as (ev1 & ev2 & ev3 & -> & H1 & H2 & _ & _ & _ & H3). simpl.
  rewrite !Forall_app. split; [|split].
  - eapply Forall_impl; [exact H1|]. intros []; simpl; tauto.
  - eapply Forall_impl; [exact H2|]. intros []; simpl; tauto.
  - destruct H3 as [[-> _]|[p Hp]]; [constructor|].
    destruct Hp; repeat constructor.
Qed.


(** * The claims *)

(** ** Credentials *)

(** C2.  When [CIRCUITPY_WIFI_SSID] or [CIRCUITPY_WIFI_PASSWORD] is missing
    or empty, [sync_time] raises the configuration error of line 92 without
    having called any collaborator (the log of the call is empty: no bus,
    pin, radio or network object was created or used) and without having
    touched the cached handles. *)
Theorem sync_time_requires_credentials `{PyBuiltins} (X : Platform)
    (env : gmap string pyval) server tz_offset tuning h s :
  unset_or_empty env "CIRCUITPY_WIFI_SSID" \/
  unset_or_empty env "CIRCUITPY_WIFI_PASSWORD" ->
  sync_time X env server tz_offset tuning h s = (Raise missing_credentials, s, []).
Proof.
  intros Hmissing. apply sync_time_no_credentials.
  unfold getenv.
  destruct Hmissing as [[-> | ->] | [-> | ->]]; simpl; auto.
Qed.

Lemma sync_time_requires_credentials_witness :
  sync_time (Demo.platform (Demo.healthy 2025))
            (<["CIRCUITPY_WIFI_PASSWORD" := PStr ""]> Demo.wifi)
            PNone PNone None [] _state_init
  = (Raise missing_credentials, _state_init, []).
Proof.
  apply (sync_time_requires_credentials (Demo.platform (Demo.healthy 2025))).
  right. right. apply lookup_insert_eq.
Defined.

(** ** The connection loop *)

(** The connection attempts of a call, read off its log. *)
Lemma sync_time_loop_log `{PyBuiltins} (X : Platform)
    (env : gmap string pyval) server tz_offset tuning cfg h s :
  sync_config env server tz_offset tuning = Ok cfg ->
  let run := sync_time X env server tz_offset tuning h s in
  (attempts run.2 <= Z.to_nat (c_retries cfg + 1))%nat /\
  (length (failures run.2) <= attempts run.2)%nat /\
  (0 <= c_retries cfg ->
   length (failures run.2) = Z.to_nat (c_retries cfg + 1) ->
   exists x xs,
     run.1.1 = Raise x /\ last (failures run.2) = Some x /\
     resets run.2 = Z.to_nat (c_retries cfg) /\
     length xs = Z.to_nat (c_retries cfg) /\
     steps run.2 = concat (map (retried (c_retry_delay cfg)) xs) ++ [SFailed x]).
Proof.
  intros Hcfg run. subst run.
  destruct (truthy (getenv env "CIRCUITPY_WIFI_SSID")) eqn:Hssid;
    [destruct (truthy (getenv env "CIRCUITPY_WIFI_PASSWORD")) eqn:Hpw|].
  2,3: rewrite sync_time_no_credentials by auto;
       (split; [unfold attempts; simpl; lia | split; simpl; lia]).
  pose proof (sync_time_phases X env server tz_offset tuning cfg h s Hssid Hpw Hcfg)
    as Hrun.
  destruct (sync_time X env server tz_offset tuning h s) as [[r s'] new].
  destruct Hrun as (ev1 & ev2 & ev3 & -> & H1 & H2 & Hatt & Hfail & Hall & H3).
  destruct (setup_silent ev1 H1) as (A1 & F1 & R1 & _ & _ & S1).
  assert (attempts ev3 = 0%nat /\ failures ev3 = [] /\ resets ev3 = 0%nat /\
          steps ev3 = []) as (A3 & F3 & R3 & S3).
  { destruct H3 as [[-> _]|[p Hp]]; [repeat split|].
    exact (fetch_silent _ _ _ _ Hp). }
  cbn [fst snd].
  rewrite !attempts_app, !failures_app, !resets_app, !steps_app.
  rewrite A1, F1, R1, S1, A3, F3, R3, S3, !app_nil_r. simpl.
  split; [lia|]. split; [lia|]. intros Hr Hlen.
  destruct Hall as (x & -> & Hlast & Hres & xs & Hxs & Hst); [assumption|lia|].
  exists x, xs. repeat split; try assumption. lia.
Qed.





(** C4, as the code has it.  When all [retries + 1] connection attempts
    fail, the failure surfaced to the caller is the exception the radio
    driver raised in the final attempt, re-raised unchanged by the bare
    [raise] of line 119: its class is whatever the driver chose, and it is
    a [ConnectionError] when the driver's failures are. *)
Theorem sync_time_exhaustion_reraises `{PyBuiltins} (X : Platform)
    (env : gmap string pyval) server tz_offset tuning cfg h s :
  sync_config env server tz_offset tuning = Ok cfg ->
  0 <= c_retries cfg ->
  let run := sync_time X env server tz_offset tuning h s in
  Z.of_nat (length (failures run.2)) = c_retries cfg + 1 ->
  exists x,
    run.1.1 = Raise x /\ last (failures run.2) = Some x /\
    (Forall (fun y => exn_cls y = ConnectionError) (failures run.2) ->
     exn_cls x = ConnectionError).
Proof.
  intros Hcfg Hr run Hlen.
  destruct (sync_time_loop_log X env server tz_offset tuning cfg h s Hcfg)
    as (_ & _ & Hall).
  destruct Hall as (x & xs & Hx & Hlast & _); [assumption|fold run; lia|].
  exists x. split; [exact Hx|]. split; [exact Hlast|].
  intros Hcls. rewrite Forall_forall in Hcls. apply Hcls.
  apply last_Some_elem_of. exact Hlast.
Qed.

Lemma sync_time_exhaustion_reraises_witness :
  let run :=
    sync_time (Demo.platform (Demo.flaky 3 (Exn ConnectionError "No such ssid") 2025))
              Demo.wifi PNone PNone None [] _state_init in
  exists x, run.1.1 = Raise x /\ exn_cls x = ConnectionError.
Proof.
  intros run.
  destruct (sync_time_exhaustion_reraises
              (Demo.platform (Demo.flaky 3 (Exn ConnectionError "No such ssid") 2025))
              Demo.wifi PNone PNone None Demo.defaults [] _state_init)
    as (x & Hx & _ & Hcls).
  { vm_compute. reflexivity. }
  { vm_compute. discriminate. }
  { vm_compute. reflexivity. }
  exists x. split; [exact Hx|]. apply Hcls. vm_compute. repeat constructor.
Defined.

(** C4 as stated fails: when the driver's [connect_AP] fails with an
    [OSError] on every attempt, [sync_time], with the default 2 retries,
    surfaces that [OSError]. *)
Lemma sync_time_exhaustion_not_connection_error :
  let run :=
    sync_time (Demo.platform (Demo.flaky 3 (Exn OSError "Unknown error 0x04") 2025))
              Demo.wifi PNone PNone None [] _state_init in
  sync_config Demo.wifi PNone PNone None = Ok Demo.defaults /\
  Z.of_nat (length (failures run.2)) = c_retries Demo.defaults + 1 /\
  run.1.1 = Raise (Exn OSError "Unknown error 0x04") /\
  ~ (exists x, run.1.1 = Raise x /\ exn_cls x = ConnectionError).
Proof.
  intros run.
  assert (Hrun : run.1.1 = Raise (Exn OSError "Unknown error 0x04"))
    by (vm_compute; reflexivity).
  split; [vm_compute; reflexivity|]. split; [vm_compute; reflexivity|].
  split; [exact Hrun|].
  intros (x & Hx & Hcls). rewrite Hrun in Hx. injection Hx as <-. discriminate Hcls.
Qed.

(** ** The minimum-year check *)

(** C1, as the code has it.  With [require_year] the resolved minimum
    year (the [require_year] entry of the tuning dict converted by [int()]
    when there is one, else 2022): if the time fetched by a call has a
    smaller year, the call raises the exception of line 136, a
    [RuntimeError] with the message "NTP returned an unexpected year; not
    setting RTC", and never writes the RTC; and every time a call writes
    to the RTC is the time it fetched, with a year that passes the
    check. *)
Theorem sync_time_year_check `{PyBuiltins} (X : Platform)
    (env : gmap string pyval) server tz_offset tuning cfg h s :
  sync_config env server tz_offset tuning = Ok cfg ->
  let run := sync_time X env server tz_offset tuning h s in
  knob tuning "require_year" py_int 2022 = Ok (c_require_year cfg) /\
  (forall now, In now (fetched run.2) -> tm_year now < c_require_year cfg ->
     run.1.1 = Raise unexpected_year /\ rtc_writes run.2 = [] /\
     exn_name (exn_cls unexpected_year) = "RuntimeError" /\
     exn_msg unexpected_year = "NTP returned an unexpected year; not setting RTC") /\
  (forall t, In t (rtc_writes run.2) ->
     c_require_year cfg <= tm_year t /\ In t (fetched run.2)).
Proof.
  intros Hcfg run. subst run.
  split; [apply (sync_config_fields _ _ _ _ _ Hcfg)|].
  destruct (truthy (getenv env "CIRCUITPY_WIFI_SSID")) eqn:Hssid;
    [destruct (truthy (getenv env "CIRCUITPY_WIFI_PASSWORD")) eqn:Hpw|].
  2,3: rewrite sync_time_no_credentials by auto; simpl; split; intros ? [].
  pose proof (sync_time_phases X env server tz_offset tuning cfg h s Hssid Hpw Hcfg)
    as Hrun.
  destruct (sync_time X env server tz_offset tuning h s) as [[r s'] new].
  destruct Hrun as (ev1 & ev2 & ev3 & -> & H1 & H2 & _ & _ & _ & H3).
  destruct (setup_silent ev1 H1) as (_ & _ & _ & W1 & G1 & _).
  destruct (radio_silent ev2 (Forall_impl _ _ _ H2 (loop_call_radio _))) as (W2 & G2).
  cbn [fst snd].
  rewrite !rtc_writes_app, !fetched_app, W1, W2, G1, G2. simpl.
  destruct H3 as [[-> _]|[p Hp]]; [split; intros ? []|].
  destruct Hp; simpl; split; intros tm Hin; try destruct Hin as [<-|[]];
    try contradiction; try lia; auto.
Qed.

Lemma sync_time_year_check_witness :
  let run :=
    sync_time (Demo.platform (Demo.healthy 2025)) Demo.wifi PNone PNone
              (Some {[ "require_year" := PInt 2030 ]}) [] _state_init in
  fetched run.2 = [Demo.noon 2025] /\ run.1.1 = Raise unexpected_year /\
  rtc_writes run.2 = [].
Proof.
  intros run.
  assert (Hf : fetched run.2 = [Demo.noon 2025]) by (vm_compute; reflexivity).
  split; [exact Hf|].
  destruct (sync_time_year_check (Demo.platform (Demo.healthy 2025)) Demo.wifi
              PNone PNone (Some {[ "require_year" := PInt 2030 ]})
              {| c_server := PStr "pool.ntp.org"; c_tz_offset := PFloat (inject_Z 0);
                 c_timeout := inject_Z 5; c_retries := 2;
                 c_retry_delay := inject_Z 1; c_cache_seconds := 0;
                 c_require_year := 2030; c_interval := 0 |}
              [] _state_init) as (_ & Hlow & _).
  { vm_compute. reflexivity. }
  destruct (Hlow (Demo.noon 2025)) as (Hr & Hw & _).
  { fold run. rewrite Hf. left. reflexivity. }
  { vm_compute. reflexivity. }
  split; assumption.
Defined.

(** C1 as stated fails: with a fetched year of 2025 and a required year
    of 2030 the call does fail and leaves the RTC alone, but what it
    raises is a [RuntimeError], not a [ValidationError], and its message
    is longer than the one claimed. *)
Lemma sync_time_year_check_not_validation_error :
  let tuning := Some {[ "require_year" := PInt 2030 ]} in
  let run :=
    sync_time (Demo.platform (Demo.healthy 2025)) Demo.wifi PNone PNone tuning []
              _state_init in
  knob tuning "require_year" py_int 2022 = Ok 2030 /\
  fetched run.2 = [Demo.noon 2025] /\ tm_year (Demo.noon 2025) < 2030 /\
  run.1.1 = Raise (Exn RuntimeError "NTP returned an unexpected year; not setting RTC") /\
  ~ (exists x, run.1.1 = Raise x /\ exn_name (exn_cls x) = "ValidationError") /\
  ~ (exists x, run.1.1 = Raise x /\ exn_msg x = "NTP returned an unexpected year").
Proof.
  intros tuning run.
  assert (Hrun : run.1.1 = Raise (Exn RuntimeError
                   "NTP returned an unexpected year; not setting RTC"))
    by (vm_compute; reflexivity).
  split; [vm_compute; reflexivity|]. split; [vm_compute; reflexivity|].
  split; [vm_compute; reflexivity|]. split; [exact Hrun|].
  split; intros (x & Hx & Hbad); rewrite Hrun in Hx; injection Hx as <-;
    discriminate Hbad.
Qed.

(** ** Tuning, timezone and interval *)

(** C5.  For a resolved configuration, [timeout], [retries], [retry_delay]
    and [cache_seconds] are each the value supplied in the tuning dict
    (converted by [float()] or [int()]) when present, else the value of
    [NTP_TIMEOUT], [NTP_RETRIES], [NTP_DELAY_S], [NTP_CACHE_SECONDS] when
    set and usable, else 5.0, 2, 1.0, 0; [require_year] is the tuning value
    or 2022, whatever the environment.  These are the values the call
    uses: its waits last [retry_delay], its NTP client gets [timeout] and
    [cache_seconds], and the attempts are bounded by [retries]. *)
Theorem sync_time_tuning_precedence `{PyBuiltins} (X : Platform)
    (env : gmap string pyval) server tz_offset tuning cfg h s :
  sync_config env server tz_offset tuning = Ok cfg ->
  knob tuning "timeout" py_float (env_value_float env "NTP_TIMEOUT" float_5_0)
    = Ok (c_timeout cfg) /\
  knob tuning "retries" py_int (env_value_int env "NTP_RETRIES" 2)
    = Ok (c_retries cfg) /\
  knob tuning "retry_delay" py_float (env_value_float env "NTP_DELAY_S" float_1_0)
    = Ok (c_retry_delay cfg) /\
  knob tuning "cache_seconds" py_int (env_value_int env "NTP_CACHE_SECONDS" 0)
    = Ok (c_cache_seconds cfg) /\
  knob tuning "require_year" py_int 2022 = Ok (c_require_year cfg) /\
  let run := sync_time X env server tz_offset tuning h s in
  Forall (uses cfg) run.2 /\
  (attempts run.2 <= Z.to_nat (c_retries cfg + 1))%nat.
Proof.
  intros Hcfg.
  destruct (sync_config_fields _ _ _ _ _ Hcfg) as (_ & _ & Ht & Hr & Hd & Hc & Hy & _).
  repeat (split; [assumption|]).
  split; [by apply sync_time_uses|].
  apply (sync_time_loop_log X env server tz_offset tuning cfg h s Hcfg).
Qed.

Lemma sync_time_tuning_precedence_witness :
  let env := <["NTP_TIMEOUT" := PStr "9.5"]> (<["NTP_RETRIES" := PInt 4]> Demo.wifi) in
  let tuning := Some {[ "timeout" := PFloat (inject_Z 3) ]} in
  let cfg := {| c_server := PStr "pool.ntp.org"; c_tz_offset := PFloat (inject_Z 0);
                c_timeout := inject_Z 3; c_retries := 4;
                c_retry_delay := inject_Z 1; c_cache_seconds := 0;
                c_require_year := 2022; c_interval := 0 |} in
  sync_config env PNone PNone tuning = Ok cfg /\
  Forall (uses cfg)
    (sync_time (Demo.platform (Demo.healthy 2025)) env PNone PNone tuning []
               _state_init).2.
Proof.
  intros env tuning cfg.
  assert (Hcfg : sync_config env PNone PNone tuning = Ok cfg)
    by (vm_compute; reflexivity).
  split; [exact Hcfg|].
  apply (sync_time_tuning_precedence (Demo.platform (Demo.healthy 2025)) env PNone
           PNone tuning cfg [] _state_init Hcfg).
Defined.

(** C6.  Whenever a call builds its NTP client, the [tz_offset] it passes
    is the explicit argument when one was given, else the value of
    [NTP_TZ], else 0.0, plus the value of [NTP_DST] (default 0.0); the
    daylight-saving value is added to an explicit argument as well. *)
Theorem sync_time_tz_offset `{PyBuiltins} (X : Platform)
    (env : gmap string pyval) server tz_offset tuning h s :
  let run := sync_time X env server tz_offset tuning h s in
  let dst := env_value_float env "NTP_DST" float_0_0 in
  forall pool_h tz srv timeout cache r,
    In (EvNTP pool_h tz srv timeout cache r) run.2 ->
    expected_tz_offset env tz_offset = Ok tz /\
    (forall f, tz_offset = PFloat f -> tz = PFloat (float_add f dst)) /\
    (tz_offset = PNone ->
     tz = PFloat (float_add (env_value_float env "NTP_TZ" float_0_0) dst)).
Proof.
  intros run dst pool_h tz srv timeout cache r Hin. subst run.
  assert (Hexp : expected_tz_offset env tz_offset = Ok tz).
  { destruct (truthy (getenv env "CIRCUITPY_WIFI_SSID")) eqn:Hssid;
      [destruct (truthy (getenv env "CIRCUITPY_WIFI_PASSWORD")) eqn:Hpw|].
    2,3: rewrite sync_time_no_credentials in Hin by auto; destruct Hin.
    destruct (sync_config env server tz_offset tuning) as [cfg|e] eqn:Hcfg.
    2: { rewrite (sync_time_bad_config X _ _ _ _ e) in Hin by assumption.
         destruct Hin. }
    pose proof (sync_time_uses X env server tz_offset tuning cfg h s Hcfg) as Hu.
    rewrite Forall_forall in Hu. apply list_elem_of_In in Hin.
    destruct (Hu _ Hin) as (-> & _).
    apply (sync_config_fields _ _ _ _ _ Hcfg). }
  split; [exact Hexp|]. unfold expected_tz_offset in Hexp. fold dst in Hexp.
  split.
  - intros f ->. simpl in Hexp. by injection Hexp as <-.
  - intros ->. simpl in Hexp. by injection Hexp as <-.
Qed.

Lemma sync_time_tz_offset_witness :
  let env := <["NTP_DST" := PStr "1"]> (<["NTP_TZ" := PStr "-5.5"]> Demo.wifi) in
  let run :=
    sync_time (Demo.platform (Demo.healthy 2025)) env PNone (PFloat (inject_Z 2))
              None [] _state_init in
  In (EvNTP 5%nat (PFloat (inject_Z 3)) (PStr "pool.ntp.org") (inject_Z 5) 0 (Ok 8%nat))
     run.2 /\
  expected_tz_offset env (PFloat (inject_Z 2)) = Ok (PFloat (inject_Z 3)).
Proof.
  intros env run.
  assert (Hin : In (EvNTP 5%nat (PFloat (inject_Z 3)) (PStr "pool.ntp.org")
                          (inject_Z 5) 0 (Ok 8%nat)) run.2).
  { vm_compute. do 8 right. left. reflexivity. }
  split; [exact Hin|].
  apply (sync_time_tz_offset (Demo.platform (Demo.healthy 2025)) env PNone
           (PFloat (inject_Z 2)) None [] _state_init _ _ _ _ _ _ Hin).
Defined.

Lemma py_add_not_none `{PyBuiltins} (a b v : pyval) :
  py_add a b = Ok v -> v <> PNone.
Proof.
  unfold py_add.
  destruct a as [|[]| | |], b as [|[]| | |]; simpl; try discriminate;
    try (intros [= <-]; discriminate);
    try (destruct (float_of_int _); simpl; try discriminate;
         intros [= <-]; discriminate).
Qed.

(** C7, as the code has it.  For a successful call, [next_sync] is [None]
    exactly when the resolved interval (the value of [NTP_INTERVAL], or 0
    when it is unset, empty or unusable) is not strictly positive: zero or
    negative.  When the interval is positive, [next_sync] is the clock
    read by the call's last action, [time.time()], plus the interval. *)
Theorem sync_time_next_sync `{PyBuiltins} (X : Platform)
    (env : gmap string pyval) server tz_offset tuning h s now next_sync :
  let run := sync_time X env server tz_offset tuning h s in
  let interval := env_value_int env "NTP_INTERVAL" 0 in
  run.1.1 = Ok (now, next_sync) ->
  (next_sync = PNone <-> interval <= 0) /\
  (0 < interval ->
   exists t, last run.2 = Some (EvTime t) /\
             py_add t (PInt interval) = Ok next_sync /\
             forall z, t = PInt z -> next_sync = PInt (z + interval)).
Proof.
  intros run interval Hok. subst run interval.
  destruct (truthy (getenv env "CIRCUITPY_WIFI_SSID")) eqn:Hssid;
    [destruct (truthy (getenv env "CIRCUITPY_WIFI_PASSWORD")) eqn:Hpw|].
  2,3: rewrite sync_time_no_credentials in Hok by auto; discriminate Hok.
  destruct (sync_config env server tz_offset tuning) as [cfg|e] eqn:Hcfg.
  2: { rewrite (sync_time_bad_config X _ _ _ _ e) in Hok by assumption.
       discriminate Hok. }
  destruct (sync_config_fields _ _ _ _ _ Hcfg) as (_ & _ & _ & _ & _ & _ & _ & <-).
  pose proof (sync_time_phases X env server tz_offset tuning cfg h s Hssid Hpw Hcfg)
    as Hrun.
  destruct (sync_time X env server tz_offset tuning h s) as [[r s'] new].
  destruct Hrun as (ev1 & ev2 & ev3 & -> & _ & _ & _ & _ & _ & H3).
  cbn [fst snd] in *. subst r.
  destruct H3 as [[_ Hr]|[p Hp]]; [discriminate Hr|].
  inversion Hp as [| | | |ntp now' Hy Hi Hres Hev|ntp now' t Hy Hi Hres Hev]; subst.
  - split; [tauto|]. intros Hpos. lia.
  - destruct (py_add t (PInt (c_interval cfg))) as [v|] eqn:Hadd;
      simpl in Hres; [|discriminate Hres].
    injection Hres as <- <-. split.
    + split; [intros ->; by destruct (py_add_not_none _ _ _ Hadd) | lia].
    + intros _. exists t. split; [|split; [exact Hadd|]].
      * rewrite !last_app. reflexivity.
      * intros z ->. simpl in Hadd. by injection Hadd as <-.
Qed.

Lemma sync_time_next_sync_witness :
  let env := <["NTP_INTERVAL" := PStr "3600"]> Demo.wifi in
  let run :=
    sync_time (Demo.platform (Demo.healthy 2025)) env PNone PNone None []
              _state_init in
  run.1.1 = Ok (Demo.noon 2025, PInt 1762174800) /\
  last run.2 = Some (EvTime (PInt 1762171200)) /\
  env_value_int env "NTP_INTERVAL" 0 = 3600.
Proof.
  intros env run.
  assert (Hok : run.1.1 = Ok (Demo.noon 2025, PInt 1762174800))
    by (vm_compute; reflexivity).
  assert (Hint : env_value_int env "NTP_INTERVAL" 0 = 3600)
    by (vm_compute; reflexivity).
  split; [exact Hok|]. split; [|exact Hint].
  destruct (sync_time_next_sync (Demo.platform (Demo.healthy 2025)) env PNone PNone
              None [] _state_init _ _ Hok) as [_ Hpos].
  destruct Hpos as (t & Hlast & Hadd & _); [rewrite Hint; reflexivity|].
  fold run in Hlast. rewrite Hlast. do 2 f_equal.
  assert (Hl : last run.2 = Some (EvTime (PInt 1762171200)))
    by (vm_compute; reflexivity).
  congruence.
Defined.

(** C7 as stated fails: with [NTP_INTERVAL] set to -5 the resolved
    interval is -5, neither zero nor unset, and the successful call
    returns no [next_sync]. *)
Lemma sync_time_next_sync_negative_interval :
  let env := <["NTP_INTERVAL" := PStr "-5"]> Demo.wifi in
  let run :=
    sync_time (Demo.platform (Demo.healthy 2025)) env PNone PNone None []
              _state_init in
  run.1.1 = Ok (Demo.noon 2025, PNone) /\
  env !! "NTP_INTERVAL" = Some (PStr "-5") /\
  env_value_int env "NTP_INTERVAL" 0 = -5 /\
  ~ (forall now next_sync, run.1.1 = Ok (now, next_sync) ->
       (next_sync = PNone <->
        env_value_int env "NTP_INTERVAL" 0 = 0 \/ env !! "NTP_INTERVAL" = None)).
Proof.
  intros env run.
  assert (Hok : run.1.1 = Ok (Demo.noon 2025, PNone)) by (vm_compute; reflexivity).
  assert (Hset : env !! "NTP_INTERVAL" = Some (PStr "-5")) by apply lookup_insert_eq.
  assert (Hint : env_value_int env "NTP_INTERVAL" 0 = -5) by (vm_compute; reflexivity).
  repeat (split; [assumption|]).
  intros Hclaim. destruct (Hclaim _ _ Hok) as [Hnone _].
  destruct (Hnone eq_refl) as [Hz|Hu]; [rewrite Hint in Hz|rewrite Hset in Hu];
    discriminate.
Qed.

(** ** Unusable numeric settings *)

Section Tolerance.
Context `{PyBuiltins}.
Implicit Types (env : gmap string pyval).

Lemma env_value_float_unusable env name v n d :
  unusable py_float v ->
  env_value_float (<[name := v]> env) n d = env_value_float (delete name env) n d.
Proof.
  intros Hv. unfold env_value_float.
  destruct (decide (name = n)) as [->|Hne].
  - rewrite lookup_insert_eq, lookup_delete_eq.
    destruct Hv as [-> | Hv]; [reflexivity|].
    destruct (in_none_or_empty v); [reflexivity|].
    destruct (py_float v); [discriminate Hv|reflexivity].
  - by rewrite lookup_insert_ne, lookup_delete_ne.
Qed.

Lemma env_value_int_unusable env name v n d :
  unusable py_int v ->
  env_value_int (<[name := v]> env) n d = env_value_int (delete name env) n d.
Proof.
  intros Hv. unfold env_value_int.
  destruct (decide (name = n)) as [->|Hne].
  - rewrite lookup_insert_eq, lookup_delete_eq.
    destruct Hv as [-> | Hv]; [reflexivity|].
    destruct (in_none_or_empty v); [reflexivity|].
    destruct (py_int v); [discriminate Hv|reflexivity].
  - by rewrite lookup_insert_ne, lookup_delete_ne.
Qed.

Lemma env_value_float_other env name v n d :
  name <> n ->
  env_value_float (<[name := v]> env) n d = env_value_float (delete name env) n d.
Proof.
  intros Hne. unfold env_value_float.
  by rewrite lookup_insert_ne, lookup_delete_ne.
Qed.

Lemma env_value_int_other env name v n d :
  name <> n ->
  env_value_int (<[name := v]> env) n d = env_value_int (delete name env) n d.
Proof.
  intros Hne. unfold env_value_int.
  by rewrite lookup_insert_ne, lookup_delete_ne.
Qed.

Lemma getenv_other env name v n :
  name <> n -> getenv (<[name := v]> env) n = getenv (delete name env) n.
Proof. intros Hne. by rewrite getenv_insert_ne, getenv_delete_ne. Qed.

(** [sync_time] reads the environment through these thirteen lookups only. *)
Lemma sync_time_env_ext (X : Platform) env1 env2 server tz_offset tuning :
  (forall n, In n ["CIRCUITPY_WIFI_SSID"; "CIRCUITPY_WIFI_PASSWORD"; "NTP_SERVER"] ->
             getenv env1 n = getenv env2 n) ->
  (forall n d, In n float_variables ->
               env_value_float env1 n d = env_value_float env2 n d) ->
  (forall n d, In n int_variables ->
               env_value_int env1 n d = env_value_int env2 n d) ->
  sync_time X env1 server tz_offset tuning = sync_time X env2 server tz_offset tuning.
Proof.
  intros Hg Hf Hi.
  assert (Hcfg : sync_config env1 server tz_offset tuning
                 = sync_config env2 server tz_offset tuning).
  { unfold sync_config. rewrite !_env_float_value, !_env_int_value.
    rewrite (Hg "NTP_SERVER") by (simpl; tauto).
    rewrite !(Hf _ _) by (simpl; tauto).
    rewrite !(Hi _ _) by (simpl; tauto).
    reflexivity. }
  unfold sync_time. rewrite Hcfg.
  rewrite (Hg "CIRCUITPY_WIFI_SSID"), (Hg "CIRCUITPY_WIFI_PASSWORD") by (simpl; tauto).
  reflexivity.
Qed.

End Tolerance.

(** C10.  Setting one of the seven numeric variables to the empty string
    or to a value its conversion refuses changes nothing with respect to
    leaving it unset: [sync_time] makes the same calls and returns the same
    result, so the value is never the cause of a failure; and in all three
    cases (unset, empty, refused) reading the variable raises nothing and
    yields the hard-coded default. *)
Theorem sync_time_tolerates_unusable_numbers `{PyBuiltins} (X : Platform)
    (env : gmap string pyval) name v server tz_offset tuning :
  (In name float_variables /\ unusable py_float v) \/
  (In name int_variables /\ unusable py_int v) ->
  sync_time X (<[name := v]> env) server tz_offset tuning
  = sync_time X (delete name env) server tz_offset tuning /\
  (In name float_variables ->
   forall d, _env_float (<[name := v]> env) name (PFloat d) = Ok d /\
             _env_float (delete name env) name (PFloat d) = Ok d) /\
  (In name int_variables ->
   forall d, _env_int (<[name := v]> env) name (PInt d) = Ok d /\
             _env_int (delete name env) name (PInt d) = Ok d).
Proof.
  intros Hbad.
  assert (Hdisjoint : In name float_variables -> In name int_variables -> False).
  { unfold float_variables, int_variables. simpl.
    intros Hf Hi. repeat destruct Hf as [<-|Hf]; try destruct Hf;
      repeat destruct Hi as [Hi|Hi]; try discriminate Hi; destruct Hi. }
  split; [|split].
  - apply sync_time_env_ext.
    + intros n Hn. apply getenv_other. intros <-.
      unfold float_variables, int_variables in Hbad. simpl in Hbad, Hn.
      destruct Hbad as [[Hname _]|[Hname _]];
        repeat destruct Hn as [Hn|Hn]; try destruct Hn;
        repeat destruct Hname as [Hname|Hname]; try discriminate Hname;
        destruct Hname.
    + intros n d Hn. destruct Hbad as [[_ Hv]|[Hname _]].
      * by apply env_value_float_unusable.
      * apply env_value_float_other. intros <-. exact (Hdisjoint Hn Hname).
    + intros n d Hn. destruct Hbad as [[Hname _]|[_ Hv]].
      * apply env_value_int_other. intros <-. exact (Hdisjoint Hname Hn).
      * by apply env_value_int_unusable.
  - intros Hname d. split; [|apply _env_float_unset; by rewrite getenv_delete_eq].
    destruct Hbad as [[_ Hv]|[Hi _]]; [|destruct (Hdisjoint Hname Hi)].
    destruct Hv as [Hv|Hv].
    + apply _env_float_unset. by rewrite getenv_insert_eq.
    + apply _env_float_unusable. by rewrite getenv_insert_eq.
  - intros Hname d. split; [|apply _env_int_unset; by rewrite getenv_delete_eq].
    destruct Hbad as [[Hf _]|[_ Hv]]; [destruct (Hdisjoint Hf Hname)|].
    destruct Hv as [Hv|Hv].
    + apply _env_int_unset. by rewrite getenv_insert_eq.
    + apply _env_int_unusable. by rewrite getenv_insert_eq.
Qed.

Lemma sync_time_tolerates_unusable_numbers_witness :
  sync_time (Demo.platform (Demo.healthy 2025))
            (<["NTP_RETRIES" := PStr "2.5"]> Demo.wifi) PNone PNone None
  = sync_time (Demo.platform (Demo.healthy 2025))
              (delete "NTP_RETRIES" Demo.wifi) PNone PNone None /\
  _env_int (<["NTP_RETRIES" := PStr "2.5"]> Demo.wifi) "NTP_RETRIES" (PInt 2) = Ok 2.
Proof.
  destruct (sync_time_tolerates_unusable_numbers (Demo.platform (Demo.healthy 2025))
              Demo.wifi "NTP_RETRIES" (PStr "2.5") PNone PNone None)
    as (Hsame & _ & Hint).
  { right. split; [left; reflexivity|]. right. vm_compute. reflexivity. }
  split; [exact Hsame|]. apply (Hint ltac:(left; reflexivity) 2).
Defined.

(** ** Releasing the pins *)

Section Release.
Context `{PyBuiltins} (X : Platform).

Lemma deinits_app (a b : list event) : deinits (a ++ b) = deinits a ++ deinits b.
Proof. apply omap_app. Qed.

Lemma deinit_pins_run pins : forall h s,
  let run := deinit_pins X pins h s in
  run.1.2 = s /\
  deinits run.2 `prefix_of` omap id pins /\
  (is_ok run.1.1 = true -> deinits run.2 = omap id pins) /\
  (forall e, run.1.1 = Raise e ->
     exists p, last run.2 = Some (EvDeinit p (Raise e))).
Proof.
  induction pins as [|[p|] rest IH]; intros h s; simpl.
  - repeat split; [done|discriminate].
  - unfold bind, call.
    destruct (pin_deinit X h p) as [[]|e] eqn:Hp; simpl.
    + specialize (IH (h ++ [EvDeinit p (Ok ())]) s).
      destruct (deinit_pins X rest _ s) as [[r s'] ev]. simpl in *.
      destruct IH as (-> & Hpre & Hok & Hraise).
      split; [reflexivity|]. split; [by apply prefix_cons|].
      split; [intros Hr; by rewrite (Hok Hr)|].
      intros e He. destruct (Hraise e He) as [q Hq]. exists q.
      destruct ev as [|e0 ev]; [discriminate Hq|exact Hq].
    + split; [reflexivity|]. split; [by apply prefix_cons, prefix_nil|].
      split; [discriminate|]. intros e' [= <-]. by exists p.
  - apply IH.
Qed.

(** A release that fails is the last call of the loop, and its exception
    is the loop's; the loop calls nothing but [deinit()]. *)
Lemma deinit_pins_stops pins : forall h s,
  let run := deinit_pins X pins h s in
  length run.2 = length (deinits run.2) /\
  forall p e, In (EvDeinit p (Raise e)) run.2 ->
    run.1.1 = Raise e /\ last run.2 = Some (EvDeinit p (Raise e)).
Proof.
  induction pins as [|[p|] rest IH]; intros h s; simpl.
  - split; [reflexivity|]. intros ? ? [].
  - unfold bind, call.
    destruct (pin_deinit X h p) as [[]|e] eqn:Hp; simpl.
    + specialize (IH (h ++ [EvDeinit p (Ok ())]) s).
      destruct (deinit_pins X rest _ s) as [[r s'] ev]. simpl in *.
      destruct IH as (Hlen & Hstop).
      split; [by rewrite Hlen|].
      intros q e [Heq|Hin]; [discriminate Heq|].
      destruct (Hstop q e Hin) as (-> & Hlast). split; [reflexivity|].
      destruct ev as [|e0 ev]; [destruct Hin|exact Hlast].
    + split; [reflexivity|].
      intros q e' [Heq|[]]. injection Heq as <- <-. by split.
  - apply IH.
Qed.

Lemma release_pins_run h s :
  release_pins X h s =
  let run := deinit_pins X [cs s; rdy s; rst s] h s in
  (run.1.1, _state_init, run.2).
Proof.
  unfold release_pins, bind, get_state, try_finally, modify_state.
  cbv beta iota zeta. rewrite app_nil_r.
  destruct (deinit_pins X [cs s; rdy s; rst s] h s) as [[r s1] ev].
  cbn [fst snd app]. by rewrite app_nil_r.
Qed.

(** From a cleared state, [_ensure_radio] starts with [board.SPI()] and,
    when it succeeds, has built all six objects. *)
Lemma ensure_radio_fresh h :
  let run := _ensure_radio X h _state_init in
  (exists r, head run.2 = Some (EvSPI r)) /\
  (forall radio, run.1.1 = Ok radio ->
     exists spi_h cs_h rdy_h rst_h,
       run.2 = fresh_setup spi_h cs_h rdy_h rst_h radio.1 radio.2 /\
       run.1.2 = {| spi := Some spi_h; cs := Some cs_h; rdy := Some rdy_h;
                    rst := Some rst_h; esp := Some radio.1; pool := Some radio.2 |}).
Proof.
  unfold _ensure_radio, ensure_field, bind, get_state, modify_state, call, ret.
  simpl. rewrite ?app_nil_r.
  destruct (board_SPI X h) as [spi_h|e]; simpl; rewrite ?app_nil_r.
  2: { split; [eauto|discriminate]. }
  destruct (DigitalInOut X _ ESP_CS) as [cs_h|e]; simpl; rewrite ?app_nil_r.
  2: { split; [eauto|discriminate]. }
  destruct (DigitalInOut X _ ESP_BUSY) as [rdy_h|e]; simpl; rewrite ?app_nil_r.
  2: { split; [eauto|discriminate]. }
  destruct (DigitalInOut X _ ESP_RESET) as [rst_h|e]; simpl; rewrite ?app_nil_r.
  2: { split; [eauto|discriminate]. }
  destruct (ESP_SPIcontrol X _ spi_h cs_h rdy_h rst_h) as [esp_h|e]; simpl;
    rewrite ?app_nil_r.
  2: { split; [eauto|discriminate]. }
  destruct (get_radio_socketpool X _ esp_h) as [pool_h|e]; simpl.
  2: { split; [eauto|discriminate]. }
  split; [eauto|]. intros radio [= <-]. by exists spi_h, cs_h, rdy_h, rst_h.
Qed.

Lemma pure_state_fetch_and_set cfg pool_h : pure_state (fetch_and_set X cfg pool_h).
Proof.
  intros h s. pose proof (fetch_and_set_run X cfg pool_h h s) as Hr.
  destruct (fetch_and_set X cfg pool_h h s) as [[r s'] ev]. by destruct Hr.
Qed.

(** A successful [sync_time] from a cleared state has built every handle. *)
Lemma sync_time_fresh env server tz_offset tuning h res :
  let run := sync_time X env server tz_offset tuning h _state_init in
  run.1.1 = Ok res ->
  exists spi_h cs_h rdy_h rst_h esp_h pool_h rest,
    run.2 = fresh_setup spi_h cs_h rdy_h rst_h esp_h pool_h ++ rest /\
    run.1.2 = {| spi := Some spi_h; cs := Some cs_h; rdy := Some rdy_h;
                 rst := Some rst_h; esp := Some esp_h; pool := Some pool_h |}.
Proof.
  intros run Hok. subst run.
  destruct (truthy (getenv env "CIRCUITPY_WIFI_SSID")) eqn:Hssid;
    [destruct (truthy (getenv env "CIRCUITPY_WIFI_PASSWORD")) eqn:Hpw|].
  2,3: rewrite sync_time_no_credentials in Hok by auto; discriminate Hok.
  destruct (sync_config env server tz_offset tuning) as [cfg|e] eqn:Hcfg.
  2: { rewrite (sync_time_bad_config X _ _ _ _ e) in Hok by assumption.
       discriminate Hok. }
  rewrite (sync_time_run X _ _ _ _ cfg) in Hok |- * by assumption.
  destruct (ensure_radio_fresh h) as [_ Hfresh].
  destruct (_ensure_radio X h _state_init) as [[r1 s1] ev1].
  destruct r1 as [radio|e]; [|discriminate Hok].
  destruct (Hfresh radio eq_refl) as (spi_h & cs_h & rdy_h & rst_h & Hev & Hs).
  simpl in Hev, Hs. subst ev1 s1.
  match goal with
  | |- context [connect_loop X ?e ?a ?b ?c ?d ?l ?h' ?s'] =>
      pose proof (pure_state_connect_loop X e a b c d l h' s') as Hl;
      destruct (connect_loop X e a b c d l h' s') as [[r2 s2] ev2]
  end.
  simpl in Hl. subst s2.
  destruct r2 as [[]|e]; [|discriminate Hok].
  match goal with
  | |- context [fetch_and_set X cfg ?p ?h' ?s'] =>
      pose proof (pure_state_fetch_and_set cfg p h' s') as Hf;
      destruct (fetch_and_set X cfg p h' s') as [[r3 s3] ev3]
  end.
  simpl in Hf. subst s3.
  exists spi_h, cs_h, rdy_h, rst_h, radio.1, radio.2, (ev2 ++ ev3).
  split; reflexivity.
Qed.

End Release.

(** C8, as the code has it.  [release_pins] calls nothing but [deinit()],
    on the acquired control lines in the order [cs], [rdy], [rst]; when
    every release succeeds all of them are released, and a release that
    fails is its last call: the lines after it are not released and its
    exception is the one [release_pins] raises.  Whether or not a release
    failed, it leaves every cached handle unset, so a later [sync_time]
    that succeeds has built the bus, the three control lines, the radio and
    the pool anew and caches exactly these. *)
Theorem release_pins_clears_handles `{PyBuiltins} (X : Platform) h s :
  let run := release_pins X h s in
  run.1.2 = _state_init /\
  deinits run.2 `prefix_of` acquired_pins s /\
  (is_ok run.1.1 = true -> deinits run.2 = acquired_pins s) /\
  (forall e, run.1.1 = Raise e ->
     exists p, last run.2 = Some (EvDeinit p (Raise e))) /\
  length run.2 = length (deinits run.2) /\
  (forall p e, In (EvDeinit p (Raise e)) run.2 ->
     run.1.1 = Raise e /\ last run.2 = Some (EvDeinit p (Raise e))) /\
  forall (env : gmap string pyval) server tz_offset tuning h' res,
    let again := sync_time X env server tz_offset tuning h' run.1.2 in
    again.1.1 = Ok res ->
    exists spi_h cs_h rdy_h rst_h esp_h pool_h rest,
      again.2 = fresh_setup spi_h cs_h rdy_h rst_h esp_h pool_h ++ rest /\
      again.1.2 = {| spi := Some spi_h; cs := Some cs_h; rdy := Some rdy_h;
                     rst := Some rst_h; esp := Some esp_h; pool := Some pool_h |}.
Proof.
  intros run. subst run. rewrite release_pins_run. cbn [fst snd].
  destruct (deinit_pins_run X [cs s; rdy s; rst s] h s) as (_ & Hpre & Hok & Hraise).
  destruct (deinit_pins_stops X [cs s; rdy s; rst s] h s) as (Hlen & Hstop).
  split; [reflexivity|]. repeat (split; [assumption|]).
  intros env server tz_offset tuning h' res. apply sync_time_fresh.
Qed.

Lemma release_pins_clears_handles_witness :
  let X := Demo.platform (Demo.healthy 2025) in
  let first := sync_time X Demo.wifi PNone PNone None [] _state_init in
  let run := release_pins X first.2 first.1.2 in
  let again := sync_time X Demo.wifi PNone PNone None (first.2 ++ run.2) run.1.2 in
  let stuck := release_pins (Demo.platform (Demo.stuck_pin 2%nat)) [] first.1.2 in
  deinits run.2 = [1%nat; 2%nat; 3%nat] /\
  again.1.2 = {| spi := Some 14%nat; cs := Some 15%nat; rdy := Some 16%nat;
                 rst := Some 17%nat; esp := Some 18%nat; pool := Some 19%nat |} /\
  stuck.1.1 = Raise (Exn ValueError "Object has been deinitialized") /\
  deinits stuck.2 = [1%nat; 2%nat] /\ stuck.1.2 = _state_init.
Proof.
  intros X first run again stuck.
  destruct (release_pins_clears_handles X first.2 first.1.2)
    as (_ & _ & Hall & _ & _ & _ & Hagain).
  split; [|split].
  - fold run in Hall. rewrite Hall; vm_compute; reflexivity.
  - destruct (Hagain Demo.wifi PNone PNone None (first.2 ++ run.2)
                     (Demo.noon 2025, PNone))
      as (a & b & c & d & e & f & rest & Hev & Hst).
    { vm_compute. reflexivity. }
    vm_compute. reflexivity.
  - destruct (release_pins_clears_handles (Demo.platform (Demo.stuck_pin 2%nat)) []
                first.1.2) as (Hinit & _ & _ & _ & _ & Hstop & _).
    destruct (Hstop 2%nat (Exn ValueError "Object has been deinitialized"))
      as (Hraise & _).
    { vm_compute. right. left. reflexivity. }
    split; [exact Hraise|]. split; [vm_compute; reflexivity|exact Hinit].
Defined.

(** C8 as stated fails: when releasing [cs] raises, [rdy] and [rst] are
    never released. *)
Lemma release_pins_stops_at_first_failure :
  let s := {| spi := Some 0%nat; cs := Some 1%nat; rdy := Some 2%nat;
              rst := Some 3%nat; esp := Some 4%nat; pool := Some 5%nat |} in
  let run := release_pins (Demo.platform (Demo.stuck_pin 1%nat)) [] s in
  acquired_pins s = [1%nat; 2%nat; 3%nat] /\
  deinits run.2 = [1%nat] /\
  ~ (forall p, In p (acquired_pins s) -> In p (deinits run.2)).
Proof.
  intros s run.
  assert (Hd : deinits run.2 = [1%nat]) by (vm_compute; reflexivity).
  split; [reflexivity|]. split; [exact Hd|].
  intros Hall. specialize (Hall 2%nat). rewrite Hd in Hall.
  destruct Hall as [Heq|[]]; [right; left; reflexivity|discriminate Heq].
Qed.

(** ** The retry wrapper *)

Section Setup.
Context `{PyBuiltins} (X : Platform) (env : gmap string pyval).

(** One turn of the loop. *)
Lemma setup_ntp_loop_step fuel h s :
  setup_ntp_loop X env (S fuel) h s =
  let run := sync_time X env PNone PNone None h s in
  match run.1.1 with
  | Ok p => (Ok (Some p), run.1.2, run.2)
  | Raise ex =>
      let turn := run.2 ++ [EvPrint [PrStr "Exception:"; PrExn ex];
                            EvSleep (PInt 1) (Ok tt)] in
      let '(r, s2, ev2) := setup_ntp_loop X env fuel (h ++ turn) run.1.2 in
      (r, s2, turn ++ ev2)
  end.
Proof.
  cbn [setup_ntp_loop]. unfold try_except, bind at 1.
  destruct (sync_time X env PNone PNone None h s) as [[r s1] ev1].
  cbn [fst snd]. destruct r as [p|ex].
  { unfold ret. by rewrite app_nil_r. }
  unfold bind, print, time_sleep, call, call_total. cbn [Z.ltb Z.compare].
  cbv beta iota zeta.
  replace (h ++ ev1 ++ [EvPrint [PrStr "Exception:"; PrExn ex]; EvSleep (PInt 1) (Ok ())])
    with (((h ++ ev1) ++ [EvPrint [PrStr "Exception:"; PrExn ex]]) ++
          [EvSleep (PInt 1) (Ok ())])
    by (by rewrite <- !app_assoc).
  destruct (setup_ntp_loop X env fuel _ s1) as [[r2 s2] ev2].
  by rewrite <- !app_assoc.
Qed.

Lemma setup_ntp_loop_never_raises fuel : forall h s,
  is_raise (setup_ntp_loop X env fuel h s).1.1 = false.
Proof.
  induction fuel as [|fuel IH]; intros h s; [reflexivity|].
  rewrite setup_ntp_loop_step. cbv zeta.
  destruct (sync_time X env PNone PNone None h s) as [[r s1] ev1].
  cbn [fst snd]. destruct r as [p|ex]; [reflexivity|].
  match goal with
  | |- context [setup_ntp_loop X env fuel ?h' s1] =>
      specialize (IH h' s1); destruct (setup_ntp_loop X env fuel h' s1) as [[r2 s2] ev2]
  end.
  exact IH.
Qed.

(** After [k] failed turns the loop goes on as if started afresh. *)
Lemma setup_ntp_loop_rounds k : forall fuel h s evs s',
  failed_rounds X env k h s = Some (evs, s') ->
  setup_ntp_loop X env (k + fuel) h s =
  let '(r, s2, ev2) := setup_ntp_loop X env fuel (h ++ evs) s' in
  (r, s2, evs ++ ev2).
Proof.
  induction k as [|k IH]; intros fuel h s evs s' Hk.
  { injection Hk as <- <-. rewrite app_nil_r. change (0 + fuel)%nat with fuel.
    by destruct (setup_ntp_loop X env fuel h s) as [[r2 s2] ev2]. }
  cbn [failed_rounds] in Hk. cbv zeta in Hk.
  change (S k + fuel)%nat with (S (k + fuel)). rewrite setup_ntp_loop_step. cbv zeta.
  destruct (sync_time X env PNone PNone None h s) as [[r s1] ev1].
  cbn [fst snd] in *. destruct r as [p|ex]; [discriminate Hk|].
  destruct (failed_rounds X env k _ s1) as [[rest s'']|] eqn:Hrest; [|discriminate Hk].
  injection Hk as <- <-.
  rewrite (IH fuel _ _ _ _ Hrest). rewrite <- !app_assoc.
  destruct (setup_ntp_loop X env fuel _ s'') as [[r2 s2] ev2].
  by rewrite <- !app_assoc.
Qed.

Lemma setup_ntp_run fuel h s :
  setup_ntp X env fuel h s =
  let '(r, s1, ev1) := setup_ntp_loop X env fuel (h ++ [banner]) s in
  match r with
  | Ok (Some p) =>
      (Ok (Some p), s1,
       banner :: ev1 ++ report (time_localtime X ((h ++ [banner]) ++ ev1)))
  | Ok None => (Ok None, s1, banner :: ev1)
  | Raise e => (Raise e, s1, banner :: ev1)
  end.
Proof.
  unfold setup_ntp. unfold bind at 1. unfold print at 1, call_total.
  cbv beta iota zeta. unfold bind at 1. fold banner.
  destruct (setup_ntp_loop X env fuel (h ++ [banner]) s) as [[r s1] ev1].
  destruct r as [[[now next_sync]|]|e]; [|unfold ret; by rewrite app_nil_r|reflexivity].
  unfold bind, print, call_total, ret, report. cbv beta iota zeta.
  by rewrite !app_nil_r.
Qed.

End Setup.

(** C9.  [setup_ntp] never raises, however long it is run.  If the first
    [k] calls of [sync_time()] raise (each followed by the print of its
    exception and a wait of one second) and the next one returns
    [(now, next_sync)], then [setup_ntp], given more than [k] turns,
    returns exactly that pair, having made exactly those calls between its
    banner and its report; given [k] turns or fewer it is still looping. *)
Theorem setup_ntp_first_success `{PyBuiltins} (X : Platform)
    (env : gmap string pyval) h s :
  (forall fuel, is_raise (setup_ntp X env fuel h s).1.1 = false) /\
  (forall k evs s',
     failed_rounds X env k (h ++ [banner]) s = Some (evs, s') ->
     (forall fuel, (fuel <= k)%nat -> (setup_ntp X env fuel h s).1.1 = Ok None) /\
     let run := sync_time X env PNone PNone None ((h ++ [banner]) ++ evs) s' in
     forall p, run.1.1 = Ok p ->
     forall fuel, (k < fuel)%nat ->
       exists lt,
         setup_ntp X env fuel h s =
         (Ok (Some p), run.1.2, banner :: evs ++ run.2 ++ report lt)).
Proof.
  split.
  { intros fuel. rewrite setup_ntp_run.
    pose proof (setup_ntp_loop_never_raises X env fuel (h ++ [banner]) s) as Hn.
    destruct (setup_ntp_loop X env fuel (h ++ [banner]) s) as [[r s1] ev1].
    destruct r as [[p|]|e]; [reflexivity|reflexivity|discriminate Hn]. }
  intros k evs s' Hk. split.
  - intros fuel Hle. rewrite setup_ntp_run.
    assert (Hloop : (setup_ntp_loop X env fuel (h ++ [banner]) s).1.1 = Ok None).
    { clear -Hk Hle. revert fuel Hle evs s' Hk. generalize (h ++ [banner]) as h0.
      revert s. induction k as [|k IH]; intros s h0 fuel Hle evs s' Hk.
      { assert (fuel = 0%nat) as -> by lia. reflexivity. }
      destruct fuel as [|fuel]; [reflexivity|].
      rewrite setup_ntp_loop_step. cbn [failed_rounds] in Hk. cbv zeta in Hk |- *.
      destruct (sync_time X env PNone PNone None h0 s) as [[r s1] ev1].
      cbn [fst snd] in *. destruct r as [p|ex]; [discriminate Hk|].
      destruct (failed_rounds X env k _ s1) as [[rest s'']|] eqn:Hrest;
        [|discriminate Hk].
      specialize (IH s1 _ fuel ltac:(lia) _ _ Hrest).
      destruct (setup_ntp_loop X env fuel _ s1) as [[r2 s2] ev2]. exact IH. }
    destruct (setup_ntp_loop X env fuel (h ++ [banner]) s) as [[r s1] ev1].
    cbn [fst snd] in Hloop. by subst r.
  - intros run p Hok fuel Hlt. subst run.
    replace fuel with (k + S (fuel - k - 1))%nat by lia.
    rewrite setup_ntp_run, (setup_ntp_loop_rounds X env k _ _ _ _ _ Hk).
    rewrite setup_ntp_loop_step. cbv zeta.
    destruct (sync_time X env PNone PNone None ((h ++ [banner]) ++ evs) s')
      as [[r s1] ev1].
    cbn [fst snd] in *. subst r.
    eexists. by rewrite <- !app_assoc.
Qed.

Lemma setup_ntp_first_success_witness :
  let X := Demo.platform (Demo.flaky 4 (Exn ConnectionError "No such ssid") 2025) in
  let run := setup_ntp X Demo.wifi 5 [] _state_init in
  run.1.1 = Ok (Some (Demo.noon 2025, PNone)) /\
  last run.2 = Some (EvPrint [PrStr "NTP OK, localtime:"; PrTime (Demo.noon 2025)]).
Proof.
  intros X run.
  destruct (setup_ntp_first_success X Demo.wifi [] _state_init) as [_ Hfirst].
  destruct (failed_rounds X Demo.wifi 1 ([] ++ [banner]) _state_init)
    as [[evs s']|] eqn:Hk; [|vm_compute in Hk; discriminate Hk].
  destruct (Hfirst 1%nat evs s' Hk) as [_ Hret].
  destruct (Hret (Demo.noon 2025, PNone)) with (fuel := 5%nat) as [lt Hrun].
  { revert Hk. vm_compute. intros [= <- <-]. reflexivity. }
  { lia. }
  split; vm_compute; reflexivity.
Defined.

(** * Further properties of the code *)

(** ** [_ensure_radio] *)
Section EnsureRadio.
Context `{PyBuiltins} (X : Platform).

Lemma ensure_radio_run h s :
  let run := _ensure_radio X h s in
  keeps_handles s run.1.2 /\
  (forall e f r, In e run.2 -> built e = Some (f, r) ->
     f s = None /\ forall x, r = Ok x -> f run.1.2 = Some x) /\
  (forall radio, run.1.1 = Ok radio ->
     esp run.1.2 = Some radio.1 /\ pool run.1.2 = Some radio.2) /\
  (forall x, run.1.1 = Raise x ->
     exists e f, last run.2 = Some e /\ built e = Some (f, Raise x)) /\
  (forall e f x, In e run.2 -> built e = Some (f, Raise x) ->
     run.1.1 = Raise x /\ last run.2 = Some e).
Proof.
  destruct s as [a b c d e f].
  unfold _ensure_radio, ensure_field, bind, get_state, modify_state, call, ret,
    keeps_handles.
  destruct a, b, c, d, e, f; cbn -[In];
    repeat match goal with
           | |- context [match ?x with Ok _ => _ | Raise _ => _ end] =>
               destruct x; cbn -[In]
           end;
    (split; [repeat split; intros ? [= <-]; reflexivity|]);
    (split; [intros ev fld r Hin Hb; simpl in Hin;
             repeat destruct Hin as [<-|Hin]; try destruct Hin;
             simpl in Hb; injection Hb as <- <-;
             (split; [reflexivity|intros ? [= <-]; reflexivity])|]);
    (split; [intros radio Hr; try discriminate Hr; injection Hr as <-;
             split; reflexivity|]);
    (split; [intros x Hx; try discriminate Hx; injection Hx as <-;
             eexists; eexists; split; reflexivity|]);
    intros ev fld x Hin Hb; simpl in Hin;
    repeat destruct Hin as [<-|Hin]; try destruct Hin;
    simpl in Hb; try discriminate Hb; injection Hb as <- <-;
    split; reflexivity.
Qed.

Lemma ensure_radio_cached h s e p :
  esp s = Some e -> pool s = Some p -> _ensure_radio X h s = (Ok (e, p), s, []).
Proof.
  intros He Hp. unfold _ensure_radio, bind, get_state. cbv beta iota zeta.
  rewrite He, Hp. reflexivity.
Qed.

Lemma keeps_handles_refl s : keeps_handles s s.
Proof. repeat split; auto. Qed.

End EnsureRadio.

(** ** The connection loop, when it lets the call go on *)
Section LoopSuccess.
Context `{PyBuiltins} (X : Platform).

Lemma connect_attempt_ok e ssid pw h s :
  let run := connect_attempt X e ssid pw h s in
  run.1.1 = Ok tt -> Exists is_association run.2.
Proof.
  unfold connect_attempt, bind, call, ret. simpl.
  destruct (esp_is_connected X h e) as [[|]|x]; simpl.
  - intros _. by apply Exists_cons_hd.
  - destruct (esp_connect_AP X _ e ssid pw) as [[]|x]; simpl; [|discriminate].
    intros _. apply Exists_cons_tl. by apply Exists_cons_hd.
  - discriminate.
Qed.

(** The loop over the tail [k, ..., retries] of the range ends normally
    only after an attempt went through, every earlier attempt having
    failed and been followed by a reset and a completed wait. *)
Lemma connect_loop_completed e ssid pw retries delay n : forall k h s,
  Z.of_nat (k + n) = retries + 1 ->
  let run := connect_loop X e ssid pw retries delay (map Z.of_nat (seq k n)) h s in
  run.1.1 = Ok tt ->
  exists xs,
    steps run.2 = concat (map (retried delay) xs) /\
    failures run.2 = xs /\ resets run.2 = length xs /\
    (length xs <= pred n)%nat /\
    (1 <= n -> Exists is_association run.2)%nat.
Proof.
  induction n as [|n IH]; intros k h s Hk.
  { simpl. intros _. exists []. repeat split; [simpl; lia|intros; lia]. }
  simpl seq. simpl map. rewrite connect_loop_step.
  pose proof (connect_attempt_run X e ssid pw h s) as Ha.
  pose proof (connect_attempt_ok e ssid pw h s) as Hok.
  destruct (connect_attempt X e ssid pw h s) as [[r0 s0] ev0].
  destruct Ha as (-> & Hatt & _ & Hres & Hfail & Hsteps).
  cbn [fst snd] in Hok.
  destruct r0 as [[]|x].
  { cbn [fst snd]. intros _. exists []. rewrite Hsteps, Hfail, Hres.
    repeat split; [simpl; lia|auto]. }
  destruct (Z.geb_spec (Z.of_nat k) retries) as [Hlast|Hmore];
    [cbn [fst snd]; discriminate|].
  cbv zeta.
  destruct (time_sleep_run (PFloat delay)
              ((h ++ ev0) ++ [EvReset e (esp_reset X (h ++ ev0) e)]) s) as [rs ->].
  destruct rs as [[]|y]; [|cbn [fst snd]; discriminate].
  specialize (IH (S k) (((h ++ ev0) ++ [EvReset e (esp_reset X (h ++ ev0) e)]) ++
                         [EvSleep (PFloat delay) (Ok ())]) s ltac:(lia)).
  destruct (connect_loop X e ssid pw retries delay (map Z.of_nat (seq (S k) n)) _ s)
    as [[r2 s2] ev2].
  cbn [fst snd] in *. intros Hr2.
  destruct (IH Hr2) as (xs & Hst & Hf & Hr & Hlen & Hassoc).
  assert (1 <= n)%nat by lia.
  exists (x :: xs). split; [|split; [|split; [|split]]].
  - rewrite steps_app, Hsteps. cbn [app].
    change (steps (?a :: ?b :: ev2)) with (steps [a; b] ++ steps ev2).
    rewrite Hst. reflexivity.
  - rewrite failures_app, Hfail. cbn [app].
    change (failures (?a :: ?b :: ev2)) with (failures [a; b] ++ failures ev2).
    rewrite Hf. reflexivity.
  - rewrite resets_app, Hres. cbn [app].
    change (resets (?a :: ?b :: ev2)) with (resets [a; b] + resets ev2)%nat.
    rewrite Hr. reflexivity.
  - simpl. lia.
  - intros _. apply Exists_app. right. do 2 apply Exists_cons_tl. auto.
Qed.

(** The same for the whole range, whatever the sign of [retries]. *)
Lemma connect_loop_range_completed e ssid pw retries delay h s :
  let run := connect_loop X e ssid pw retries delay (range (retries + 1)) h s in
  run.1.1 = Ok tt ->
  exists xs,
    steps run.2 = concat (map (retried delay) xs) /\
    failures run.2 = xs /\ resets run.2 = length xs /\
    (length xs <= Z.to_nat retries)%nat /\
    (0 <= retries -> Exists is_association run.2).
Proof.
  destruct (Z.le_gt_cases 0 retries) as [Hr|Hr].
  - intros run Hok. subst run. unfold range in *.
    destruct (connect_loop_completed e ssid pw retries delay
                (Z.to_nat (retries + 1)) 0 h s ltac:(lia) Hok)
      as (xs & Hst & Hf & Hres & Hlen & Hassoc).
    exists xs. repeat split; try assumption; [lia|]. intros _. apply Hassoc. lia.
  - unfold range. replace (Z.to_nat (retries + 1)) with 0%nat by lia. simpl.
    intros _. exists []. repeat split; [simpl; lia|intros; lia].
Qed.

(** With a radio that reports itself connected, an attempt is one read of
    [is_connected]. *)
Lemma connect_loop_connected e ssid pw retries delay l h s :
  (forall h' e', esp_is_connected X h' e' = Ok true) ->
  connect_loop X e ssid pw retries delay l h s =
  (Ok tt, s, match l with [] => [] | _ => [EvIsConnected e (Ok true)] end).
Proof.
  intros Hon. destruct l as [|a rest]; [reflexivity|].
  rewrite connect_loop_step. unfold connect_attempt, bind, call, ret.
  rewrite Hon. reflexivity.
Qed.

(** How a call unfolds: refused for its credentials or its configuration,
    stopped while building the radio, stopped in the connection loop, or
    carried through lines 126-140. *)
Lemma sync_time_shape (env : gmap string pyval) server tz_offset tuning h s :
  let run := sync_time X env server tz_offset tuning h s in
  let radio := _ensure_radio X h s in
  run = (Raise missing_credentials, s, []) \/
  (exists x, sync_config env server tz_offset tuning = Raise x /\
             run = (Raise x, s, [])) \/
  (exists cfg,
     sync_config env server tz_offset tuning = Ok cfg /\
     run.1.2 = radio.1.2 /\
     ((exists x, radio.1.1 = Raise x /\ run.1.1 = Raise x /\ run.2 = radio.2) \/
      (exists hs r2 ev2,
         radio.1.1 = Ok hs /\
         connect_loop X hs.1 (getenv env "CIRCUITPY_WIFI_SSID")
           (getenv env "CIRCUITPY_WIFI_PASSWORD") (c_retries cfg)
           (c_retry_delay cfg) (range (c_retries cfg + 1)) (h ++ radio.2) radio.1.2
         = (r2, radio.1.2, ev2) /\
         ((exists x, r2 = Raise x /\ run.1.1 = Raise x /\ run.2 = radio.2 ++ ev2) \/
          (r2 = Ok tt /\
           exists ev3, run.2 = radio.2 ++ ev2 ++ ev3 /\
                       fetch_outcome cfg hs.2 run.1.1 ev3))))).
Proof.
  intros run radio. subst run radio.
  destruct (truthy (getenv env "CIRCUITPY_WIFI_SSID")) eqn:Hssid;
    [destruct (truthy (getenv env "CIRCUITPY_WIFI_PASSWORD")) eqn:Hpw|].
  2,3: left; apply sync_time_no_credentials; auto.
  right. destruct (sync_config env server tz_offset tuning) as [cfg|x] eqn:Hcfg.
  2: { left. exists x. split; [reflexivity|]. by apply sync_time_bad_config. }
  right. exists cfg. split; [reflexivity|].
  rewrite (sync_time_run X _ _ _ _ cfg) by assumption.
  destruct (_ensure_radio X h s) as [[r1 s1] ev1]. cbn [fst snd].
  destruct r1 as [hs|x].
  2: { split; [reflexivity|]. left. by exists x. }
  pose proof (pure_state_connect_loop X hs.1 (getenv env "CIRCUITPY_WIFI_SSID")
                (getenv env "CIRCUITPY_WIFI_PASSWORD") (c_retries cfg)
                (c_retry_delay cfg) (range (c_retries cfg + 1)) (h ++ ev1) s1) as Hl.
  destruct (connect_loop X hs.1 _ _ _ _ _ (h ++ ev1) s1) as [[r2 s2] ev2] eqn:Hloop.
  cbn [fst snd] in Hl. subst s2.
  destruct r2 as [[]|x].
  2: { split; [reflexivity|]. right. exists hs, (Raise x), ev2.
       split; [reflexivity|]. split; [exact Hloop|]. left. by exists x. }
  pose proof (fetch_and_set_run X cfg hs.2 ((h ++ ev1) ++ ev2) s1) as Hf.
  destruct (fetch_and_set X cfg hs.2 ((h ++ ev1) ++ ev2) s1) as [[r3 s3] ev3].
  destruct Hf as [-> Hf]. cbn [fst snd].
  split; [reflexivity|]. right. exists hs, (Ok tt), ev2.
  split; [reflexivity|]. split; [exact Hloop|]. right.
  split; [reflexivity|]. by exists ev3.
Qed.

End LoopSuccess.

(** ** The radio handles across calls *)

(** X1.  [_ensure_radio] never replaces a cached handle, calls a
    constructor only for a field that is unset, and caches every object a
    constructor hands out, also when a later constructor fails. *)
Theorem ensure_radio_caches `{PyBuiltins} (X : Platform) h s :
  let run := _ensure_radio X h s in
  keeps_handles s run.1.2 /\
  forall e f r, In e run.2 -> built e = Some (f, r) ->
    f s = None /\ forall x, r = Ok x -> f run.1.2 = Some x.
Proof.
  intros run. destruct (ensure_radio_run X h s) as (Hk & Hb & _). by split.
Qed.

(** X2.  After a successful [_ensure_radio], calling it again returns the
    same radio and pool without calling any constructor and without
    touching the state. *)
Theorem ensure_radio_idempotent `{PyBuiltins} (X : Platform) h s radio :
  (_ensure_radio X h s).1.1 = Ok radio ->
  forall h',
    _ensure_radio X h' (_ensure_radio X h s).1.2
    = (Ok radio, (_ensure_radio X h s).1.2, []).
Proof.
  intros Hok h'. destruct (ensure_radio_run X h s) as (_ & _ & Hpost & _).
  destruct (Hpost radio Hok) as [He Hp]. destruct radio as [e p].
  by apply ensure_radio_cached.
Qed.

Lemma ensure_radio_idempotent_witness :
  let X := Demo.platform (Demo.healthy 2025) in
  _ensure_radio X [EvSPI (Ok 0%nat)] (_ensure_radio X [] _state_init).1.2
  = (Ok (4%nat, 5%nat), (_ensure_radio X [] _state_init).1.2, []).
Proof.
  intros X. apply (ensure_radio_idempotent X [] _state_init (4%nat, 5%nat)).
  vm_compute. reflexivity.
Defined.

Section CallLemmas.
Context `{PyBuiltins} (X : Platform).

Lemma radio_not_setup e : is_radio e -> ~ is_setup e.
Proof. destruct e; simpl; tauto. Qed.

Lemma clock_not_setup e : is_clock_call e -> ~ is_setup e.
Proof. destruct e; simpl; tauto. Qed.

Lemma clock_not_radio e : is_clock_call e -> ~ is_radio e.
Proof. destruct e; simpl; tauto. Qed.

Lemma setup_not_clock e : is_setup e -> ~ is_clock_call e.
Proof. destruct e; simpl; tauto. Qed.

Lemma radio_not_clock e : is_radio e -> ~ is_clock_call e.
Proof. destruct e; simpl; tauto. Qed.

Lemma fetch_clock_calls cfg p r ev :
  fetch_outcome cfg p r ev -> Forall is_clock_call ev.
Proof. destruct 1; repeat constructor. Qed.

Lemma loop_radio_calls e ssid pw retries delay l h s :
  Forall is_radio (connect_loop X e ssid pw retries delay l h s).2.
Proof.
  eapply Forall_impl; [apply (emits_connect_loop X)|]. apply loop_call_radio.
Qed.

End CallLemmas.

Ltac sync_shape X env server tz_offset tuning h s :=
  let Hs := fresh "Hs" in
  pose proof (sync_time_shape X env server tz_offset tuning h s) as Hs;
  cbv zeta in Hs;
  destruct Hs as [Hrun | [(x0 & Hcfg0 & Hrun) |
    (cfg0 & Hcfg0 & Hstate & [(x0 & Hr1 & Hres & Hev) |
       (hs & r2 & ev2 & Hr1 & Hloop &
          [(x0 & -> & Hres & Hev) | (-> & ev3 & Hev & Hfetch)])])]].

(** X3.  Whatever its outcome, [sync_time] never clears or replaces a
    handle that was cached when it was called. *)
Theorem sync_time_keeps_handles `{PyBuiltins} (X : Platform)
    (env : gmap string pyval) server tz_offset tuning h s :
  keeps_handles s (sync_time X env server tz_offset tuning h s).1.2.
Proof.
  destruct (ensure_radio_run X h s) as (Hk & _).
  sync_shape X env server tz_offset tuning h s;
    try (rewrite Hrun; apply keeps_handles_refl); by rewrite Hstate.
Qed.

(** X4.  After a [sync_time] that succeeded, a further [sync_time], with
    whatever arguments and environment, builds no bus, pin, radio or pool
    object and leaves the cached handles as they are. *)
Theorem sync_time_reuses_radio `{PyBuiltins} (X : Platform)
    (env : gmap string pyval) server tz_offset tuning h s res :
  let first := sync_time X env server tz_offset tuning h s in
  first.1.1 = Ok res ->
  forall (env' : gmap string pyval) server' tz_offset' tuning' h',
    let second := sync_time X env' server' tz_offset' tuning' h' first.1.2 in
    second.1.2 = first.1.2 /\ Forall (fun e => ~ is_setup e) second.2.
Proof.
  intros first Hok env' server' tz_offset' tuning' h' second.
  assert (Hcached : exists e p, esp first.1.2 = Some e /\ pool first.1.2 = Some p).
  { subst first. destruct (ensure_radio_run X h s) as (_ & _ & Hpost & _).
    sync_shape X env server tz_offset tuning h s;
      try (rewrite Hrun in Hok; discriminate Hok);
      try (rewrite Hres in Hok; discriminate Hok).
    rewrite Hstate. destruct (Hpost hs Hr1) as [He Hp]. eauto. }
  destruct Hcached as (e & p & He & Hp).
  pose proof (ensure_radio_cached X h' _ e p He Hp) as Hc.
  subst second. generalize dependent first.1.2. intros s1 He Hp Hc.
  pose proof (loop_radio_calls X) as Hl.
  sync_shape X env' server' tz_offset' tuning' h' s1.
  - rewrite Hrun. split; [reflexivity|constructor].
  - rewrite Hrun. split; [reflexivity|constructor].
  - rewrite Hc in Hr1. discriminate Hr1.
  - rewrite Hstate, Hev, Hc. split; [reflexivity|]. simpl.
    specialize (Hl hs.1 (getenv env' "CIRCUITPY_WIFI_SSID")
      (getenv env' "CIRCUITPY_WIFI_PASSWORD") (c_retries cfg0) (c_retry_delay cfg0)
      (range (c_retries cfg0 + 1)) (h' ++ (_ensure_radio X h' s1).2)
      (_ensure_radio X h' s1).1.2).
    rewrite Hloop in Hl. eapply Forall_impl; [exact Hl|]. apply radio_not_setup.
  - rewrite Hstate, Hev, Hc. split; [reflexivity|]. simpl.
    specialize (Hl hs.1 (getenv env' "CIRCUITPY_WIFI_SSID")
      (getenv env' "CIRCUITPY_WIFI_PASSWORD") (c_retries cfg0) (c_retry_delay cfg0)
      (range (c_retries cfg0 + 1)) (h' ++ (_ensure_radio X h' s1).2)
      (_ensure_radio X h' s1).1.2).
    rewrite Hloop in Hl. apply Forall_app. split.
    + eapply Forall_impl; [exact Hl|]. apply radio_not_setup.
    + eapply Forall_impl; [exact (fetch_clock_calls _ _ _ _ Hfetch)|].
      apply clock_not_setup.
Qed.

Lemma sync_time_reuses_radio_witness :
  let X := Demo.platform (Demo.healthy 2025) in
  let first := sync_time X Demo.wifi PNone PNone None [] _state_init in
  let second := sync_time X Demo.wifi PNone PNone None first.2 first.1.2 in
  second.1.2 = first.1.2 /\ Forall (fun e => ~ is_setup e) second.2.
Proof.
  intros X first second.
  apply (sync_time_reuses_radio X Demo.wifi PNone PNone None [] _state_init
           (Demo.noon 2025, PNone)).
  vm_compute. reflexivity.
Defined.

(** X5.  The calls of a [sync_time] come in the order of its phases: first
    the constructors of the radio objects, then the calls of the
    connection loop, then the NTP client, the fetch, the RTC and the
    clock; no call of an earlier phase follows one of a later phase. *)
Theorem sync_time_phase_order `{PyBuiltins} (X : Platform)
    (env : gmap string pyval) server tz_offset tuning h s :
  let run := sync_time X env server tz_offset tuning h s in
  exists ev1 ev2 ev3,
    run.2 = ev1 ++ ev2 ++ ev3 /\
    Forall is_setup ev1 /\ Forall is_radio ev2 /\ Forall is_clock_call ev3.
Proof.
  intros run.
  pose proof (sync_time_shape X env server tz_offset tuning h s) as Hs.
  cbv zeta in Hs. fold run in Hs.
  pose proof (emits_ensure_radio X h s) as H1.
  destruct Hs as [Hrun | [(x & Hcfg & Hrun) |
    (cfg & Hcfg & Hstate & [(x & Hr1 & Hres & Hev) |
       (hs & r2 & ev2 & Hr1 & Hloop &
          [(x & -> & Hres & Hev) | (-> & ev3 & Hev & Hfetch)])])]].
  - exists [], [], []. rewrite Hrun. simpl. repeat split; constructor.
  - exists [], [], []. rewrite Hrun. simpl. repeat split; constructor.
  - exists (_ensure_radio X h s).2, [], []. rewrite app_nil_r.
    split; [exact Hev|]. split; [exact H1|]. split; constructor.
  - exists (_ensure_radio X h s).2, ev2, []. rewrite app_nil_r.
    pose proof (loop_radio_calls X hs.1 (getenv env "CIRCUITPY_WIFI_SSID")
      (getenv env "CIRCUITPY_WIFI_PASSWORD") (c_retries cfg) (c_retry_delay cfg)
      (range (c_retries cfg + 1)) (h ++ (_ensure_radio X h s).2)
      (_ensure_radio X h s).1.2) as H2.
    rewrite Hloop in H2.
    split; [exact Hev|]. split; [exact H1|]. split; [exact H2|constructor].
  - exists (_ensure_radio X h s).2, ev2, ev3.
    pose proof (loop_radio_calls X hs.1 (getenv env "CIRCUITPY_WIFI_SSID")
      (getenv env "CIRCUITPY_WIFI_PASSWORD") (c_retries cfg) (c_retry_delay cfg)
      (range (c_retries cfg + 1)) (h ++ (_ensure_radio X h s).2)
      (_ensure_radio X h s).1.2) as H2.
    rewrite Hloop in H2.
    split; [exact Hev|]. split; [exact H1|]. split; [exact H2|].
    by eapply fetch_clock_calls.
Qed.

(** ** Connecting *)

Section ConnectLemmas.
Context `{PyBuiltins} (X : Platform).

Lemma no_clock_call_in evs :
  Forall (fun e => ~ is_clock_call e) evs -> ~ Exists is_clock_call evs.
Proof. intros Hall Hex. apply Exists_exists in Hex as (e & Hin & He).
  rewrite Forall_forall in Hall. exact (Hall e Hin He). Qed.

Lemma setup_no_clock evs : Forall is_setup evs -> ~ Exists is_clock_call evs.
Proof.
  intros Hs. apply no_clock_call_in. eapply Forall_impl; [exact Hs|].
  apply setup_not_clock.
Qed.

Lemma radio_no_clock evs : Forall is_radio evs -> ~ Exists is_clock_call evs.
Proof.
  intros Hs. apply no_clock_call_in. eapply Forall_impl; [exact Hs|].
  apply radio_not_clock.
Qed.

(** A call that reaches lines 126-140 went through the three phases. *)
Lemma sync_time_reached_fetch (env : gmap string pyval) server tz_offset tuning h s :
  let run := sync_time X env server tz_offset tuning h s in
  Exists is_clock_call run.2 ->
  exists cfg hs ev2 ev3,
    sync_config env server tz_offset tuning = Ok cfg /\
    Forall is_setup (_ensure_radio X h s).2 /\
    connect_loop X hs.1 (getenv env "CIRCUITPY_WIFI_SSID")
      (getenv env "CIRCUITPY_WIFI_PASSWORD") (c_retries cfg) (c_retry_delay cfg)
      (range (c_retries cfg + 1)) (h ++ (_ensure_radio X h s).2)
      (_ensure_radio X h s).1.2
    = (Ok tt, (_ensure_radio X h s).1.2, ev2) /\
    run.2 = (_ensure_radio X h s).2 ++ ev2 ++ ev3 /\
    fetch_outcome cfg hs.2 run.1.1 ev3.
Proof.
  intros run Hex. subst run.
  pose proof (emits_ensure_radio X h s) as H1.
  pose proof (loop_radio_calls X) as Hl.
  sync_shape X env server tz_offset tuning h s.
  - rewrite Hrun in Hex. by apply Exists_nil in Hex.
  - rewrite Hrun in Hex. by apply Exists_nil in Hex.
  - rewrite Hev in Hex. by destruct (setup_no_clock _ H1).
  - rewrite Hev in Hex. apply Exists_app in Hex as [Hex|Hex].
    + by destruct (setup_no_clock _ H1).
    + specialize (Hl hs.1 (getenv env "CIRCUITPY_WIFI_SSID")
        (getenv env "CIRCUITPY_WIFI_PASSWORD") (c_retries cfg0) (c_retry_delay cfg0)
        (range (c_retries cfg0 + 1)) (h ++ (_ensure_radio X h s).2)
        (_ensure_radio X h s).1.2).
      rewrite Hloop in Hl. by destruct (radio_no_clock _ Hl).
  - exists cfg0, hs, ev2, ev3. repeat split; assumption.
Qed.

End ConnectLemmas.

(** X6.  When the radio reports itself connected, [sync_time] never calls
    [connect_AP], never resets the radio and never waits: it reads
    [is_connected] at most once. *)
Theorem sync_time_already_connected `{PyBuiltins} (X : Platform)
    (env : gmap string pyval) server tz_offset tuning h s :
  (forall h' e, esp_is_connected X h' e = Ok true) ->
  let run := sync_time X env server tz_offset tuning h s in
  steps run.2 = [] /\ (attempts run.2 <= 1)%nat /\
  forall e ssid pw r, ~ In (EvConnectAP e ssid pw r) run.2.
Proof.
  intros Hon run. subst run.
  pose proof (emits_ensure_radio X h s) as H1.
  destruct (setup_silent _ H1) as (A1 & _ & _ & _ & _ & S1).
  assert (N1 : forall e ssid pw r, ~ In (EvConnectAP e ssid pw r) (_ensure_radio X h s).2).
  { intros e ssid pw r Hin. rewrite Forall_forall in H1.
    apply list_elem_of_In in Hin. exact (H1 _ Hin). }
  sync_shape X env server tz_offset tuning h s;
    try (rewrite Hrun; repeat split; [unfold attempts; simpl; lia|intros ? ? ? ? []]).
  - rewrite Hev, S1, A1. repeat split; [lia|apply N1].
  - rewrite connect_loop_connected in Hloop by assumption. discriminate Hloop.
  - rewrite connect_loop_connected in Hloop by assumption. injection Hloop as <-.
    destruct (fetch_silent _ _ _ _ Hfetch) as (A3 & _ & _ & S3).
    rewrite Hev, !steps_app, !attempts_app, S1, A1, S3, A3.
    assert (N3 : forall e ssid pw r, ~ In (EvConnectAP e ssid pw r) ev3).
    { intros e ssid pw r Hin. pose proof (fetch_clock_calls _ _ _ _ Hfetch) as Hc.
      rewrite Forall_forall in Hc. apply list_elem_of_In in Hin. exact (Hc _ Hin). }
    destruct (range (c_retries cfg0 + 1)); simpl;
      (split; [reflexivity|]); (split; [unfold attempts; simpl; lia|]);
      intros e ssid pw r Hin; apply in_app_or in Hin as [Hin|Hin];
      try (by destruct (N1 _ _ _ _ Hin));
      try (apply in_app_or in Hin as [Hin|Hin]);
      try (by destruct (N3 _ _ _ _ Hin));
      simpl in Hin; try destruct Hin as [Hin|Hin]; try discriminate Hin;
      try destruct Hin; try (by destruct (N3 _ _ _ _ Hin)).
Qed.

Lemma sync_time_already_connected_witness :
  let run := sync_time Demo.online Demo.wifi PNone PNone None [] _state_init in
  steps run.2 = [] /\ (attempts run.2 <= 1)%nat /\
  forall e ssid pw r, ~ In (EvConnectAP e ssid pw r) run.2.
Proof.
  apply (sync_time_already_connected Demo.online Demo.wifi PNone PNone None []
           _state_init).
  reflexivity.
Defined.

(** X7.  When a call gets as far as building its NTP client, every failed
    connection attempt before was followed by one reset and one completed
    wait of [retry_delay] seconds: there were as many resets as failures,
    and no more failures than [retries]. *)
Theorem sync_time_backoff_before_fetch `{PyBuiltins} (X : Platform)
    (env : gmap string pyval) server tz_offset tuning cfg h s :
  sync_config env server tz_offset tuning = Ok cfg ->
  let run := sync_time X env server tz_offset tuning h s in
  Exists is_clock_call run.2 ->
  exists xs,
    steps run.2 = concat (map (retried (c_retry_delay cfg)) xs) /\
    failures run.2 = xs /\ resets run.2 = length xs /\
    (length xs <= Z.to_nat (c_retries cfg))%nat.
Proof.
  intros Hcfg run Hex.
  destruct (sync_time_reached_fetch X env server tz_offset tuning h s Hex)
    as (cfg' & hs & ev2 & ev3 & Hcfg' & H1 & Hloop & Hev & Hfetch).
  rewrite Hcfg in Hcfg'. injection Hcfg' as <-.
  pose proof (connect_loop_range_completed X hs.1
    (getenv env "CIRCUITPY_WIFI_SSID") (getenv env "CIRCUITPY_WIFI_PASSWORD")
    (c_retries cfg) (c_retry_delay cfg) (h ++ (_ensure_radio X h s).2)
    (_ensure_radio X h s).1.2) as Hdone.
  cbv zeta in Hdone. rewrite Hloop in Hdone.
  destruct (Hdone eq_refl) as (xs & Hst & Hf & Hr & Hlen & _).
  destruct (setup_silent _ H1) as (_ & F1 & R1 & _ & _ & S1).
  destruct (fetch_silent _ _ _ _ Hfetch) as (_ & F3 & R3 & S3).
  exists xs. fold run in Hev. rewrite Hev.
  rewrite !steps_app, !failures_app, !resets_app, S1, F1, R1, S3, F3, R3, !app_nil_r.
  simpl in *. repeat split; try assumption. lia.
Qed.

Lemma sync_time_backoff_before_fetch_witness :
  let run :=
    sync_time (Demo.platform (Demo.flaky 2 (Exn ConnectionError "No such ssid") 2025))
              Demo.wifi PNone PNone None [] _state_init in
  exists xs, failures run.2 = xs /\ resets run.2 = length xs /\ (length xs <= 2)%nat.
Proof.
  intros run.
  destruct (sync_time_backoff_before_fetch
              (Demo.platform (Demo.flaky 2 (Exn ConnectionError "No such ssid") 2025))
              Demo.wifi PNone PNone None Demo.defaults [] _state_init)
    as (xs & _ & Hf & Hr & Hlen).
  { vm_compute. reflexivity. }
  { vm_compute. repeat (first [apply Exists_cons_hd; exact I | apply Exists_cons_tl]). }
  exists xs. auto.
Defined.

(** X8.  With a retry count that is not negative, a call builds its NTP
    client only after a connection attempt went through: the radio
    reported itself connected or [connect_AP] returned. *)
Theorem sync_time_associates_before_fetch `{PyBuiltins} (X : Platform)
    (env : gmap string pyval) server tz_offset tuning cfg h s :
  sync_config env server tz_offset tuning = Ok cfg ->
  0 <= c_retries cfg ->
  let run := sync_time X env server tz_offset tuning h s in
  Exists is_clock_call run.2 ->
  exists before after,
    run.2 = before ++ after /\
    Exists is_association before /\
    Forall (fun e => ~ is_clock_call e) before /\ Forall is_clock_call after.
Proof.
  intros Hcfg Hretries run Hex.
  destruct (sync_time_reached_fetch X env server tz_offset tuning h s Hex)
    as (cfg' & hs & ev2 & ev3 & Hcfg' & H1 & Hloop & Hev & Hfetch).
  rewrite Hcfg in Hcfg'. injection Hcfg' as <-.
  pose proof (connect_loop_range_completed X hs.1
    (getenv env "CIRCUITPY_WIFI_SSID") (getenv env "CIRCUITPY_WIFI_PASSWORD")
    (c_retries cfg) (c_retry_delay cfg) (h ++ (_ensure_radio X h s).2)
    (_ensure_radio X h s).1.2) as Hdone.
  pose proof (loop_radio_calls X hs.1
    (getenv env "CIRCUITPY_WIFI_SSID") (getenv env "CIRCUITPY_WIFI_PASSWORD")
    (c_retries cfg) (c_retry_delay cfg) (range (c_retries cfg + 1))
    (h ++ (_ensure_radio X h s).2) (_ensure_radio X h s).1.2) as H2.
  cbv zeta in Hdone. rewrite Hloop in Hdone, H2. cbn [fst snd] in *.
  destruct (Hdone eq_refl) as (_ & _ & _ & _ & _ & Hassoc).
  exists ((_ensure_radio X h s).2 ++ ev2), ev3.
  split; [by rewrite <- app_assoc|]. split; [apply Exists_app; auto|].
  split; [|by eapply fetch_clock_calls].
  apply Forall_app. split.
  - eapply Forall_impl; [exact H1|]. apply setup_not_clock.
  - eapply Forall_impl; [exact H2|]. apply radio_not_clock.
Qed.

Lemma sync_time_associates_before_fetch_witness :
  let run :=
    sync_time (Demo.platform (Demo.healthy 2025)) Demo.wifi PNone PNone None []
              _state_init in
  exists before after,
    run.2 = before ++ after /\ Exists is_association before /\
    Forall (fun e => ~ is_clock_call e) before /\ Forall is_clock_call after.
Proof.
  apply (sync_time_associates_before_fetch (Demo.platform (Demo.healthy 2025))
           Demo.wifi PNone PNone None Demo.defaults [] _state_init).
  - vm_compute. reflexivity.
  - vm_compute. discriminate.
  - vm_compute. repeat (first [apply Exists_cons_hd; exact I | apply Exists_cons_tl]).
Defined.

(** X9.  With a negative retry count the loop of lines 112-124 has nothing
    to iterate over: [sync_time] neither reads [is_connected] nor calls
    [connect_AP], [reset] or [sleep]; its calls are the constructors of
    the radio objects followed at once by those of lines 126-140. *)
Theorem sync_time_negative_retries `{PyBuiltins} (X : Platform)
    (env : gmap string pyval) server tz_offset tuning cfg h s :
  sync_config env server tz_offset tuning = Ok cfg ->
  c_retries cfg < 0 ->
  let run := sync_time X env server tz_offset tuning h s in
  attempts run.2 = 0%nat /\
  exists ev1 ev3,
    run.2 = ev1 ++ ev3 /\ Forall is_setup ev1 /\ Forall is_clock_call ev3.
Proof.
  intros Hcfg Hneg run. subst run.
  pose proof (emits_ensure_radio X h s) as H1.
  destruct (setup_silent _ H1) as (A1 & _).
  assert (Hrange : range (c_retries cfg + 1) = []).
  { unfold range. by replace (Z.to_nat (c_retries cfg + 1)) with 0%nat by lia. }
  sync_shape X env server tz_offset tuning h s;
    try (rewrite Hcfg in Hcfg0; try discriminate Hcfg0; injection Hcfg0 as <-).
  - rewrite Hrun. split; [reflexivity|]. exists [], []. repeat split; constructor.
  - rewrite Hev. split; [exact A1|]. exists (_ensure_radio X h s).2, [].
    rewrite app_nil_r. repeat split; [exact H1|constructor].
  - rewrite Hrange in Hloop. discriminate Hloop.
  - rewrite Hrange in Hloop. injection Hloop as <-. rewrite Hev. simpl.
    destruct (fetch_silent _ _ _ _ Hfetch) as (A3 & _).
    split; [by rewrite attempts_app, A1, A3|].
    exists (_ensure_radio X h s).2, ev3.
    repeat split; [exact H1|by eapply fetch_clock_calls].
Qed.

Lemma sync_time_negative_retries_witness :
  let tuning := Some {[ "retries" := PInt (-1) ]} in
  let run :=
    sync_time (Demo.platform (Demo.flaky 9 (Exn ConnectionError "No such ssid") 2025))
              Demo.wifi PNone PNone tuning [] _state_init in
  attempts run.2 = 0%nat /\ run.1.1 = Ok (Demo.noon 2025, PNone).
Proof.
  intros tuning run.
  destruct (sync_time_negative_retries
              (Demo.platform (Demo.flaky 9 (Exn ConnectionError "No such ssid") 2025))
              Demo.wifi PNone PNone tuning
              {| c_server := PStr "pool.ntp.org"; c_tz_offset := PFloat (inject_Z 0);
                 c_timeout := inject_Z 5; c_retries := -1;
                 c_retry_delay := inject_Z 1; c_cache_seconds := 0;
                 c_require_year := 2022; c_interval := 0 |}
              [] _state_init) as [Hatt _].
  { vm_compute. reflexivity. }
  { reflexivity. }
  split; [exact Hatt|]. vm_compute. reflexivity.
Defined.

(** ** Fetching, and failing early *)

(** X10.  When building the NTP client or fetching the time fails,
    [sync_time] raises that very exception and does not write the RTC. *)
Theorem sync_time_fetch_failure `{PyBuiltins} (X : Platform)
    (env : gmap string pyval) server tz_offset tuning h s x :
  let run := sync_time X env server tz_offset tuning h s in
  (exists p tz srv timeout cache, In (EvNTP p tz srv timeout cache (Raise x)) run.2)
  \/ (exists ntp, In (EvDatetime ntp (Raise x)) run.2) ->
  run.1.1 = Raise x /\ rtc_writes run.2 = [].
Proof.
  intros run Hfail.
  assert (Hex : Exists is_clock_call run.2).
  { apply Exists_exists.
    destruct Hfail as [(p & tz & srv & timeout & cache & Hin)|(ntp & Hin)];
      eexists; (split; [apply list_elem_of_In; exact Hin|exact I]). }
  destruct (sync_time_reached_fetch X env server tz_offset tuning h s Hex)
    as (cfg & hs & ev2 & ev3 & Hcfg & H1 & Hloop & Hev & Hfetch).
  pose proof (loop_radio_calls X hs.1
    (getenv env "CIRCUITPY_WIFI_SSID") (getenv env "CIRCUITPY_WIFI_PASSWORD")
    (c_retries cfg) (c_retry_delay cfg) (range (c_retries cfg + 1))
    (h ++ (_ensure_radio X h s).2) (_ensure_radio X h s).1.2) as H2.
  rewrite Hloop in H2. cbn [snd] in H2.
  destruct (setup_silent _ H1) as (_ & _ & _ & W1 & _).
  destruct (radio_silent _ H2) as (W2 & _).
  fold run in Hev, Hfetch.
  assert (Hin3 : (exists p tz srv timeout cache,
                     In (EvNTP p tz srv timeout cache (Raise x)) ev3)
                 \/ (exists ntp, In (EvDatetime ntp (Raise x)) ev3)).
  { rewrite Hev in Hfail. rewrite Forall_forall in H1, H2.
    destruct Hfail as [(p & tz & srv & timeout & cache & Hin)|(ntp & Hin)];
      [left; exists p, tz, srv, timeout, cache|right; exists ntp];
      (apply in_app_or in Hin as [Hin|Hin];
       [apply list_elem_of_In in Hin; destruct (H1 _ Hin)|]);
      (apply in_app_or in Hin as [Hin|Hin];
       [apply list_elem_of_In in Hin; destruct (H2 _ Hin)|exact Hin]). }
  rewrite Hev, !rtc_writes_app, W1, W2. simpl.
  destruct Hfetch; unfold ntp_event in *; simpl in Hin3;
    destruct Hin3 as [(p & tz & srv & tmo & cache & Hin)|(n' & Hin)];
    repeat (destruct Hin as [Hin|Hin]); try contradiction;
    try discriminate Hin; inversion Hin; subst; split; reflexivity.
Qed.

Lemma sync_time_fetch_failure_witness :
  let run :=
    sync_time (Demo.platform Demo.unreachable) Demo.wifi PNone PNone None []
              _state_init in
  run.1.1 = Raise (Exn OSError "ETIMEDOUT") /\ rtc_writes run.2 = [].
Proof.
  apply (sync_time_fetch_failure (Demo.platform Demo.unreachable) Demo.wifi PNone
           PNone None [] _state_init).
  right. exists 8%nat. vm_compute. do 9 right. left. reflexivity.
Defined.

(** What the log of a successful call holds. *)
Lemma sync_time_returned_time `{PyBuiltins} (X : Platform)
    (env : gmap string pyval) server tz_offset tuning h s now next_sync :
  let run := sync_time X env server tz_offset tuning h s in
  run.1.1 = Ok (now, next_sync) ->
  fetched run.2 = [now] /\ rtc_writes run.2 = [now] /\
  In (EvRTCSet now (Ok tt)) run.2.
Proof.
  intros run Hok. subst run.
  pose proof (emits_ensure_radio X h s) as H1.
  pose proof (loop_radio_calls X) as Hl.
  sync_shape X env server tz_offset tuning h s;
    try (rewrite Hrun in Hok; discriminate Hok);
    try (rewrite Hres in Hok; discriminate Hok).
  specialize (Hl hs.1 (getenv env "CIRCUITPY_WIFI_SSID")
    (getenv env "CIRCUITPY_WIFI_PASSWORD") (c_retries cfg0) (c_retry_delay cfg0)
    (range (c_retries cfg0 + 1)) (h ++ (_ensure_radio X h s).2)
    (_ensure_radio X h s).1.2).
  rewrite Hloop in Hl. cbn [snd] in Hl.
  destruct (setup_silent _ H1) as (_ & _ & _ & W1 & G1 & _).
  destruct (radio_silent _ Hl) as (W2 & G2).
  rewrite Hev, !rtc_writes_app, !fetched_app, W1, W2, G1, G2. simpl.
  rewrite Hok in Hfetch.
  inversion Hfetch as [| | | |ntp now' Hy Hi Hres Hevs|ntp now' t Hy Hi Hres Hevs];
    subst.
  - repeat split. apply in_or_app. right. apply in_or_app. right.
    simpl. auto.
  - destruct (py_add t (PInt (c_interval cfg0))); simpl in Hres;
      [|discriminate Hres].
    injection Hres as -> _. repeat split.
    apply in_or_app. right. apply in_or_app. right. simpl. auto.
Qed.

(** X11.  A [sync_time] that returns [(now, next_sync)] has fetched [now]
    from the NTP client and written it to the RTC, once, successfully. *)
Theorem sync_time_success_sets_rtc `{PyBuiltins} (X : Platform)
    (env : gmap string pyval) server tz_offset tuning h s now next_sync :
  let run := sync_time X env server tz_offset tuning h s in
  run.1.1 = Ok (now, next_sync) ->
  fetched run.2 = [now] /\ rtc_writes run.2 = [now] /\
  In (EvRTCSet now (Ok tt)) run.2.
Proof.
  intros run Hok.
  exact (sync_time_returned_time X env server tz_offset tuning h s now next_sync Hok).
Qed.

Lemma sync_time_success_sets_rtc_witness :
  let run :=
    sync_time (Demo.platform (Demo.healthy 2025)) Demo.wifi PNone PNone None []
              _state_init in
  rtc_writes run.2 = [Demo.noon 2025].
Proof.
  intros run.
  destruct (sync_time_success_sets_rtc (Demo.platform (Demo.healthy 2025)) Demo.wifi
              PNone PNone None [] _state_init (Demo.noon 2025) PNone)
    as (_ & Hw & _).
  { vm_compute. reflexivity. }
  exact Hw.
Defined.

(** X12.  The server handed to the NTP client is the [server] argument
    when it is truthy, else [NTP_SERVER] when that is truthy, else
    "pool.ntp.org": an empty string, as argument or in the environment,
    counts as absent. *)
Theorem sync_time_server `{PyBuiltins} (X : Platform)
    (env : gmap string pyval) server tz_offset tuning h s :
  let run := sync_time X env server tz_offset tuning h s in
  forall p tz srv timeout cache r,
    In (EvNTP p tz srv timeout cache r) run.2 ->
    (truthy server = true -> srv = server) /\
    (truthy server = false -> truthy (getenv env "NTP_SERVER") = true ->
     srv = getenv env "NTP_SERVER") /\
    (truthy server = false -> truthy (getenv env "NTP_SERVER") = false ->
     srv = PStr "pool.ntp.org").
Proof.
  intros run p tz srv timeout cache r Hin.
  assert (Hex : Exists is_clock_call run.2).
  { apply Exists_exists. eexists. split; [apply list_elem_of_In; exact Hin|exact I]. }
  destruct (sync_time_reached_fetch X env server tz_offset tuning h s Hex)
    as (cfg & _ & _ & _ & Hcfg & _).
  pose proof (sync_time_uses X env server tz_offset tuning cfg h s Hcfg) as Hu.
  rewrite Forall_forall in Hu. apply list_elem_of_In in Hin.
  destruct (Hu _ Hin) as (_ & -> & _).
  destruct (sync_config_fields _ _ _ _ _ Hcfg) as (-> & _).
  unfold py_or.
  destruct (truthy server) eqn:Hs.
  - rewrite Hs. repeat split; [discriminate|discriminate].
  - destruct (truthy (getenv env "NTP_SERVER")) eqn:He;
      repeat split; try discriminate; reflexivity.
Qed.

Lemma sync_time_server_witness :
  let env := <["NTP_SERVER" := PStr "time.example.org"]> Demo.wifi in
  let run :=
    sync_time (Demo.platform (Demo.healthy 2025)) env (PStr "") PNone None []
              _state_init in
  In (EvNTP 5%nat (PFloat (inject_Z 0)) (PStr "time.example.org") (inject_Z 5) 0
            (Ok 8%nat)) run.2 /\
  getenv env "NTP_SERVER" = PStr "time.example.org".
Proof.
  intros env run.
  assert (Hin : In (EvNTP 5%nat (PFloat (inject_Z 0)) (PStr "time.example.org")
                          (inject_Z 5) 0 (Ok 8%nat)) run.2).
  { vm_compute. do 8 right. left. reflexivity. }
  split; [exact Hin|].
  destruct (sync_time_server (Demo.platform (Demo.healthy 2025)) env (PStr "") PNone
              None [] _state_init _ _ _ _ _ _ Hin) as (_ & Henv & _).
  symmetry. apply Henv; vm_compute; reflexivity.
Defined.

(** X13.  With the credentials present, a tuning entry that [float()] or
    [int()] refuses makes [sync_time] raise before it has called any
    collaborator or touched the cached handles. *)
Theorem sync_time_bad_tuning `{PyBuiltins} (X : Platform)
    (env : gmap string pyval) server tz_offset (t : gmap string pyval) key v h s :
  truthy (getenv env "CIRCUITPY_WIFI_SSID") = true ->
  truthy (getenv env "CIRCUITPY_WIFI_PASSWORD") = true ->
  t !! key = Some v ->
  converts key v = false ->
  exists x, sync_time X env server tz_offset (Some t) h s = (Raise x, s, []).
Proof.
  intros Hssid Hpw Hkey Hconv.
  destruct (sync_config env server tz_offset (Some t)) as [cfg|x] eqn:Hcfg.
  2: { exists x. by apply sync_time_bad_config. }
  exfalso.
  destruct (sync_config_fields _ _ _ _ _ Hcfg) as (_ & _ & Ht & Hr & Hd & Hc & Hy & _).
  unfold knob in *. unfold converts in Hconv.
  destruct (String.eqb_spec key "timeout") as [->|_].
  { rewrite Hkey in Ht. simpl in Hconv. by rewrite Ht in Hconv. }
  destruct (String.eqb_spec key "retry_delay") as [->|_].
  { rewrite Hkey in Hd. simpl in Hconv. by rewrite Hd in Hconv. }
  simpl in Hconv.
  destruct (String.eqb_spec key "retries") as [->|_].
  { rewrite Hkey in Hr. simpl in Hconv. by rewrite Hr in Hconv. }
  destruct (String.eqb_spec key "cache_seconds") as [->|_].
  { rewrite Hkey in Hc. simpl in Hconv. by rewrite Hc in Hconv. }
  destruct (String.eqb_spec key "require_year") as [->|_].
  { rewrite Hkey in Hy. simpl in Hconv. by rewrite Hy in Hconv. }
  discriminate Hconv.
Qed.

Lemma sync_time_bad_tuning_witness :
  exists x,
    sync_time (Demo.platform (Demo.healthy 2025)) Demo.wifi PNone PNone
              (Some {[ "retries" := PNone ]}) [] _state_init
    = (Raise x, _state_init, []).
Proof.
  apply (sync_time_bad_tuning (Demo.platform (Demo.healthy 2025)) Demo.wifi PNone
           PNone {[ "retries" := PNone ]} "retries" PNone [] _state_init).
  - vm_compute. reflexivity.
  - vm_compute. reflexivity.
  - apply lookup_singleton_eq.
  - reflexivity.
Defined.

(** X14.  When a constructor of the radio objects raises, [sync_time]
    raises that very exception and makes no further call: no connection
    attempt, no NTP client. *)
Theorem sync_time_setup_failure `{PyBuiltins} (X : Platform)
    (env : gmap string pyval) server tz_offset tuning h s e f x :
  let run := sync_time X env server tz_offset tuning h s in
  In e run.2 -> built e = Some (f, Raise x) ->
  run.1.1 = Raise x /\ last run.2 = Some e.
Proof.
  intros run Hin Hb. subst run.
  destruct (ensure_radio_run X h s) as (_ & _ & _ & _ & Hfail).
  pose proof (loop_radio_calls X) as Hl.
  assert (Hnb : forall evs, (Forall is_radio evs \/ Forall is_clock_call evs) ->
                            ~ In e evs).
  { intros evs Hall Hin'. apply list_elem_of_In in Hin'.
    destruct Hall as [Hall|Hall]; rewrite Forall_forall in Hall;
      specialize (Hall _ Hin'); destruct e as [| [] | | | | | | | | | | | | |];
      simpl in *; try discriminate Hb; contradiction. }
  sync_shape X env server tz_offset tuning h s;
    try (rewrite Hrun in Hin; destruct Hin).
  - rewrite Hev in Hin |- *. destruct (Hfail _ _ _ Hin Hb) as [Hraise Hlast].
    rewrite Hres. split; [congruence|exact Hlast].
  - specialize (Hl hs.1 (getenv env "CIRCUITPY_WIFI_SSID")
      (getenv env "CIRCUITPY_WIFI_PASSWORD") (c_retries cfg0) (c_retry_delay cfg0)
      (range (c_retries cfg0 + 1)) (h ++ (_ensure_radio X h s).2)
      (_ensure_radio X h s).1.2).
    rewrite Hloop in Hl. rewrite Hev in Hin.
    apply in_app_or in Hin as [Hin|Hin]; [|by destruct (Hnb ev2 (or_introl Hl))].
    destruct (Hfail _ _ _ Hin Hb) as [Hraise _]. congruence.
  - specialize (Hl hs.1 (getenv env "CIRCUITPY_WIFI_SSID")
      (getenv env "CIRCUITPY_WIFI_PASSWORD") (c_retries cfg0) (c_retry_delay cfg0)
      (range (c_retries cfg0 + 1)) (h ++ (_ensure_radio X h s).2)
      (_ensure_radio X h s).1.2).
    rewrite Hloop in Hl. rewrite Hev in Hin.
    apply in_app_or in Hin as [Hin|Hin].
    { destruct (Hfail _ _ _ Hin Hb) as [Hraise _]. congruence. }
    apply in_app_or in Hin as [Hin|Hin]; [by destruct (Hnb ev2 (or_introl Hl))|].
    by destruct (Hnb ev3 (or_intror (fetch_clock_calls _ _ _ _ Hfetch))).
Qed.

Lemma sync_time_setup_failure_witness :
  let run := sync_time Demo.busy_line Demo.wifi PNone PNone None [] _state_init in
  run.1.1 = Raise (Exn ValueError "ESP_BUSY in use") /\
  last run.2 = Some (EvDigitalInOut ESP_BUSY (Raise (Exn ValueError "ESP_BUSY in use"))).
Proof.
  apply (sync_time_setup_failure Demo.busy_line Demo.wifi PNone PNone None []
           _state_init _ rdy).
  - vm_compute. do 2 right. left. reflexivity.
  - reflexivity.
Defined.

(** ** Releasing twice, looping unconfigured, the example script *)

(** X15.  [release_pins] on a state that holds no control line calls
    nothing and returns normally; so does any [release_pins] that follows
    another, whether or not that one raised. *)
Theorem release_pins_twice `{PyBuiltins} (X : Platform) h s :
  (acquired_pins s = [] -> release_pins X h s = (Ok tt, _state_init, [])) /\
  forall h', release_pins X h' (release_pins X h s).1.2 = (Ok tt, _state_init, []).
Proof.
  split.
  - intros Hnone. rewrite release_pins_run. unfold acquired_pins in Hnone.
    destruct (cs s), (rdy s), (rst s); try discriminate Hnone. reflexivity.
  - intros h'. rewrite (release_pins_run X h s). cbn [fst snd].
    rewrite release_pins_run. reflexivity.
Qed.

(** X16.  With the credentials missing, [setup_ntp] never gets out of its
    loop and never touches the hardware: however many turns it is given,
    it is still looping, the cached handles are unchanged, and all it has
    done is print its banner and, once per turn, print the configuration
    error and wait one second. *)
Theorem setup_ntp_unconfigured `{PyBuiltins} (X : Platform)
    (env : gmap string pyval) h s :
  unset_or_empty env "CIRCUITPY_WIFI_SSID" \/
  unset_or_empty env "CIRCUITPY_WIFI_PASSWORD" ->
  forall fuel,
    setup_ntp X env fuel h s
    = (Ok None, s, banner :: concat (replicate fuel unconfigured_turn)).
Proof.
  intros Hmissing fuel.
  assert (Hsync : forall h' s',
            sync_time X env PNone PNone None h' s' = (Raise missing_credentials, s', [])).
  { intros h' s'. apply sync_time_no_credentials. unfold getenv.
    destruct Hmissing as [[-> | ->] | [-> | ->]]; simpl; auto. }
  rewrite setup_ntp_run.
  assert (Hloop : forall h0,
            setup_ntp_loop X env fuel h0 s
            = (Ok None, s, concat (replicate fuel unconfigured_turn))).
  { induction fuel as [|fuel IH]; intros h0; [reflexivity|].
    rewrite setup_ntp_loop_step, Hsync. cbv zeta. cbn [fst snd app].
    rewrite IH. reflexivity. }
  rewrite Hloop. reflexivity.
Qed.

Lemma setup_ntp_unconfigured_witness :
  setup_ntp (Demo.platform (Demo.healthy 2025)) ∅ 2 [] _state_init
  = (Ok None, _state_init,
     banner :: concat (replicate 2 unconfigured_turn)).
Proof.
  apply (setup_ntp_unconfigured (Demo.platform (Demo.healthy 2025)) ∅ [] _state_init).
  left. left. apply lookup_empty.
Defined.

(** X17.  The example script prints "RTC set:" with the time that
    [sync_time] returned, after the RTC was written with it; when
    [sync_time] raises, the script prints nothing, makes no further call
    and lets the exception through. *)
Theorem fruitjam_ntp_reports `{PyBuiltins} (X : Platform)
    (env : gmap string pyval) h s :
  let synced := sync_time X env PNone PNone None h s in
  let run := fruitjam_ntp X env h s in
  match synced.1.1 with
  | Ok (now, _) =>
      run = (Ok tt, synced.1.2, synced.2 ++ [EvPrint [PrStr "RTC set:"; PrTime now]])
      /\ rtc_writes run.2 = [now]
  | Raise x => run = (Raise x, synced.1.2, synced.2)
  end.
Proof.
  intros synced run.
  pose proof (sync_time_returned_time X env PNone PNone None h s) as Hset.
  cbv zeta in Hset.
  fold synced in Hset. subst run. unfold fruitjam_ntp, bind. fold synced.
  destruct synced as [[r s1] ev]. cbn [fst snd] in *.
  destruct r as [[now next_sync]|x]; [|reflexivity].
  unfold print, call_total. cbn [fst snd].
  split; [reflexivity|].
  destruct (Hset now next_sync eq_refl) as (_ & Hw & _).
  rewrite rtc_writes_app, Hw. reflexivity.
Qed.

(** X18.  Given a numeric default, [_env_float] and [_env_int] never
    raise: they return the converted value of the variable when it is set,
    not [""] and convertible, and the default in every other case.  A set
    value of zero is a value like any other. *)
Theorem env_readers_never_raise `{PyBuiltins} (env : gmap string pyval) name :
  (forall d, exists x,
     _env_float env name (PFloat d) = Ok x /\
     (x = d \/ (in_none_or_empty (getenv env name) = false /\
                py_float (getenv env name) = Ok x))) /\
  (forall d, exists z,
     _env_int env name (PInt d) = Ok z /\
     (z = d \/ (in_none_or_empty (getenv env name) = false /\
                py_int (getenv env name) = Ok z))) /\
  (forall d z, env !! name = Some (PInt z) -> _env_int env name (PInt d) = Ok z).
Proof.
  split; [|split].
  - intros d. unfold _env_float.
    destruct (in_none_or_empty (getenv env name)) eqn:Hempty; simpl; [eauto|].
    destruct (py_float (getenv env name)) as [x|e] eqn:Hconv; simpl; eauto.
  - intros d. unfold _env_int.
    destruct (in_none_or_empty (getenv env name)) eqn:Hempty; simpl; [eauto|].
    destruct (py_int (getenv env name)) as [x|e] eqn:Hconv; simpl; eauto.
  - intros d z Hset. unfold _env_int, getenv. rewrite Hset. reflexivity.
Qed.

(** ** What the call depends on, and whom it talks to *)

Section Targets.
Context `{PyBuiltins} (X : Platform).

Lemma emits_connect_loop_on_radio e ssid pw retries delay l :
  emits (on_radio e ssid pw) (connect_loop X e ssid pw retries delay l).
Proof.
  induction l as [|a rest IH]; simpl; [apply emits_ret|].
  apply emits_try_except.
  { unfold connect_attempt. apply emits_bind; [by apply emits_call|].
    intros c. destruct c; simpl; [apply emits_ret | by apply emits_call]. }
  intros x. destruct (a >=? retries); [apply emits_raise|].
  apply emits_bind.
  { apply emits_try_except; [by apply emits_call | intros; apply emits_ret]. }
  intros _. apply emits_bind; [by apply emits_call | intros; exact IH].
Qed.

End Targets.

(** X19.  Every call of the connection loop goes to the radio that is
    cached when [sync_time] ends, [connect_AP] always with the two
    credentials read from the environment; and the NTP client is built on
    the cached pool. *)
Theorem sync_time_targets `{PyBuiltins} (X : Platform)
    (env : gmap string pyval) server tz_offset tuning h s :
  let run := sync_time X env server tz_offset tuning h s in
  (forall e, In e run.2 -> is_radio e ->
     exists esp_h, esp run.1.2 = Some esp_h /\
       on_radio esp_h (getenv env "CIRCUITPY_WIFI_SSID")
                (getenv env "CIRCUITPY_WIFI_PASSWORD") e) /\
  (forall p tz srv timeout cache r,
     In (EvNTP p tz srv timeout cache r) run.2 -> pool run.1.2 = Some p).
Proof.
  intros run. subst run.
  pose proof (emits_ensure_radio X h s) as H1.
  destruct (ensure_radio_run X h s) as (_ & _ & Hpost & _).
  assert (Hns : forall e, In e (_ensure_radio X h s).2 -> ~ is_radio e).
  { intros e Hin Hr. rewrite Forall_forall in H1. apply list_elem_of_In in Hin.
    exact (radio_not_setup e Hr (H1 _ Hin)). }
  assert (Hnn : forall p tz srv timeout cache r,
            ~ In (EvNTP p tz srv timeout cache r) (_ensure_radio X h s).2).
  { intros p tz srv timeout cache r Hin. rewrite Forall_forall in H1.
    apply list_elem_of_In in Hin. exact (H1 _ Hin). }
  sync_shape X env server tz_offset tuning h s;
    try (rewrite Hrun; split; [intros ? []|intros ? ? ? ? ? ? []]).
  - rewrite Hev. split; [intros e Hin Hr; by destruct (Hns e Hin)|].
    intros p tz srv timeout cache r Hin. by destruct (Hnn _ _ _ _ _ _ Hin).
  - pose proof (emits_connect_loop_on_radio X hs.1
      (getenv env "CIRCUITPY_WIFI_SSID") (getenv env "CIRCUITPY_WIFI_PASSWORD")
      (c_retries cfg0) (c_retry_delay cfg0) (range (c_retries cfg0 + 1))
      (h ++ (_ensure_radio X h s).2) (_ensure_radio X h s).1.2) as H2.
    rewrite Hloop in H2. cbn [snd] in H2. rewrite Forall_forall in H2.
    destruct (Hpost hs Hr1) as [He Hp]. rewrite Hstate, Hev. split.
    + intros e Hin Hr. apply in_app_or in Hin as [Hin|Hin];
        [by destruct (Hns e Hin)|].
      exists hs.1. split; [exact He|]. apply H2. by apply list_elem_of_In.
    + intros p tz srv timeout cache r Hin. apply in_app_or in Hin as [Hin|Hin];
        [by destruct (Hnn _ _ _ _ _ _ Hin)|].
      apply list_elem_of_In in Hin. destruct (H2 _ Hin).
  - pose proof (emits_connect_loop_on_radio X hs.1
      (getenv env "CIRCUITPY_WIFI_SSID") (getenv env "CIRCUITPY_WIFI_PASSWORD")
      (c_retries cfg0) (c_retry_delay cfg0) (range (c_retries cfg0 + 1))
      (h ++ (_ensure_radio X h s).2) (_ensure_radio X h s).1.2) as H2.
    rewrite Hloop in H2. cbn [snd] in H2. rewrite Forall_forall in H2.
    pose proof (fetch_clock_calls _ _ _ _ Hfetch) as H3.
    rewrite Forall_forall in H3.
    destruct (Hpost hs Hr1) as [He Hp]. rewrite Hstate, Hev. split.
    + intros e Hin Hr. apply in_app_or in Hin as [Hin|Hin];
        [by destruct (Hns e Hin)|].
      apply in_app_or in Hin as [Hin|Hin].
      * exists hs.1. split; [exact He|]. apply H2. by apply list_elem_of_In.
      * apply list_elem_of_In in Hin. by destruct (clock_not_radio e (H3 _ Hin)).
    + intros p tz srv timeout cache r Hin. apply in_app_or in Hin as [Hin|Hin];
        [by destruct (Hnn _ _ _ _ _ _ Hin)|].
      apply in_app_or in Hin as [Hin|Hin].
      * apply list_elem_of_In in Hin. destruct (H2 _ Hin).
      * destruct Hfetch; unfold ntp_event in Hin; simpl in Hin;
          repeat (destruct Hin as [Hin|Hin]); try contradiction;
          try discriminate Hin; injection Hin as <-; exact Hp.
Qed.

(** X20.  [sync_time] reads nothing of the environment but its ten
    settings: setting, changing or removing any other variable changes
    neither its calls nor its result. *)
Theorem sync_time_ignores_other_variables `{PyBuiltins} (X : Platform)
    (env : gmap string pyval) name v server tz_offset tuning :
  ~ In name settings ->
  sync_time X (<[name := v]> env) server tz_offset tuning
  = sync_time X env server tz_offset tuning /\
  sync_time X (delete name env) server tz_offset tuning
  = sync_time X env server tz_offset tuning.
Proof.
  intros Hname.
  assert (Hne : forall n, In n settings -> name <> n) by (intros n Hn ->; auto).
  split; apply sync_time_env_ext.
  - intros n Hn. apply getenv_insert_ne, Hne. unfold settings. simpl in *. tauto.
  - intros n d Hn. unfold env_value_float. rewrite lookup_insert_ne; [reflexivity|].
    apply Hne. unfold settings, float_variables in *. simpl in *. tauto.
  - intros n d Hn. unfold env_value_int. rewrite lookup_insert_ne; [reflexivity|].
    apply Hne. unfold settings, int_variables in *. simpl in *. tauto.
  - intros n Hn. apply getenv_delete_ne, Hne. unfold settings. simpl in *. tauto.
  - intros n d Hn. unfold env_value_float. rewrite lookup_delete_ne; [reflexivity|].
    apply Hne. unfold settings, float_variables in *. simpl in *. tauto.
  - intros n d Hn. unfold env_value_int. rewrite lookup_delete_ne; [reflexivity|].
    apply Hne. unfold settings, int_variables in *. simpl in *. tauto.
Qed.

Lemma sync_time_ignores_other_variables_witness :
  sync_time (Demo.platform (Demo.healthy 2025))
            (<["CIRCUITPY_WEB_API_PORT" := PInt 80]> Demo.wifi) PNone PNone None
  = sync_time (Demo.platform (Demo.healthy 2025)) Demo.wifi PNone PNone None.
Proof.
  apply (sync_time_ignores_other_variables (Demo.platform (Demo.healthy 2025))
           Demo.wifi "CIRCUITPY_WEB_API_PORT" (PInt 80) PNone PNone None).
  unfold settings. simpl. intros Hin.
  repeat (destruct Hin as [Hin|Hin]; [discriminate Hin|]). exact Hin.
Defined.

(** X21.  [sync_time] looks up five keys of the tuning dict and no other:
    a dict that holds none of them, the empty dict included, behaves as no
    dict at all. *)
Theorem sync_time_ignores_other_keys `{PyBuiltins} (X : Platform)
    (env : gmap string pyval) server tz_offset (t : gmap string pyval) :
  (forall key, In key tuning_keys -> t !! key = None) ->
  sync_time X env server tz_offset (Some t) = sync_time X env server tz_offset None.
Proof.
  intros Hkeys.
  assert (Hget : forall key d, In key tuning_keys ->
                   dict_get t key d = dict_get (∅ : gmap string pyval) key d).
  { intros key d Hk. unfold dict_get. by rewrite (Hkeys key Hk), lookup_empty. }
  assert (Hcfg : sync_config env server tz_offset (Some t)
                 = sync_config env server tz_offset None).
  { unfold sync_config. rewrite !_env_float_value, !_env_int_value. simpl.
    rewrite !(Hget _ _) by (unfold tuning_keys; simpl; tauto). reflexivity. }
  unfold sync_time. by rewrite Hcfg.
Qed.

Lemma sync_time_ignores_other_keys_witness :
  sync_time (Demo.platform (Demo.healthy 2025)) Demo.wifi PNone PNone
            (Some {[ "retry" := PInt 9 ]})
  = sync_time (Demo.platform (Demo.healthy 2025)) Demo.wifi PNone PNone None.
Proof.
  apply (sync_time_ignores_other_keys (Demo.platform (Demo.healthy 2025)) Demo.wifi
           PNone PNone {[ "retry" := PInt 9 ]}).
  intros key Hin. apply lookup_singleton_ne. unfold tuning_keys in Hin. simpl in Hin.
  repeat (destruct Hin as [<-|Hin]; [discriminate|]). destruct Hin.
Defined.
